(** * AITradeGuard: a shallow embedding of the Python backend

    The four backend modules are embedded as state-passing programs:

    - [backend/config/app_config.py]           (module [AppConfig])
    - [backend/trading/bybit_connector.py]     (module [Bybit])
    - [backend/blockchain/blockchain_integration.py] (module [Blockchain])
    - [backend/ai_models/sentiment_analyzer.py] (module [Sentiment])

    Conventions.
    - A Python call either returns a value or raises; [outcome] records
      which.  State changes made before a [raise] are kept, as in Python.
    - [exn] stands for instances of [Exception]; [except Exception] catches
      all of them.  Signals that only derive from [BaseException]
      (KeyboardInterrupt, SystemExit) are outside the model.
    - Python floats are idealised as real numbers ([R]); rounding and
      infinities are outside the model.  In the analyzer, where pandas
      produces NaN by itself, a float is a real number or NaN
      ([Floats.pyfloat]) and NaN propagates through the arithmetic.
    - Third-party clients (ccxt, web3, yfinance/pandas, dotenv) are
      parameters: a record of operations over an arbitrary external state
      [X].  Every request sent to one of them is also appended to the
      ghost field [requests] of the world, so that theorems can count them. *)

From Stdlib Require Import String Ascii List ZArith Bool Reals Lra Lia.
From stdpp Require Import base option gmap strings.
Import ListNotations.

#[local] Set Warnings "-register-all".
#[local] Open Scope string_scope.
#[local] Open Scope list_scope.

(* ===================================================================== *)
(** ** Python values, exceptions and outcomes *)
(* ===================================================================== *)

Module Py.

(** Exceptions (all subclasses of [Exception]). *)
Inductive exn : Type :=
  | AttributeError (attr : string)
  | NameError (name : string)
  | KeyError (key : string)
  | IndexError
  | TypeError
  | ValueError (what : string)
  | NotFittedError
  | ClientError (what : string).   (* raised inside a third-party client *)

(** Dynamically typed values.  A dict keeps its insertion order. *)
Inductive pyval : Type :=
  | VNone
  | VBool (b : bool)
  | VInt (z : Z)
  | VFloat (r : R)
  | VStr (s : string)
  | VList (l : list pyval)
  | VDict (d : list (string * pyval)).

Inductive outcome (A : Type) : Type :=
  | Returns (a : A)
  | Raises (e : exn).
Arguments Returns {A} a.
Arguments Raises {A} e.

(** [d[k]] on an association list: the first binding wins. *)
Fixpoint assoc (k : string) (d : list (string * pyval)) : option pyval :=
  match d with
  | [] => None
  | (k', v) :: d' => if String.eqb k k' then Some v else assoc k d'
  end.

(** [v[k]] with a string key. *)
Definition getitem (v : pyval) (k : string) : outcome pyval :=
  match v with
  | VDict d => match assoc k d with
               | Some x => Returns x
               | None => Raises (KeyError k)
               end
  | _ => Raises TypeError
  end.

(** [v[i]] with a non-negative integer index (lists and tuples). *)
Definition getindex (v : pyval) (i : nat) : outcome pyval :=
  match v with
  | VList l => match nth_error l i with
               | Some x => Returns x
               | None => Raises IndexError
               end
  | _ => Raises TypeError
  end.

(** The keys of a dict, in order. *)
Definition keys (v : pyval) : list string :=
  match v with
  | VDict d => map fst d
  | _ => []
  end.


(** Truth value of an object, as tested by [if] and [not]. *)
Definition truthy (v : pyval) : bool :=
  match v with
  | VNone => false
  | VBool b => b
  | VInt z => negb (Z.eqb z 0)
  | VFloat r => if Req_dec_T r 0 then false else true
  | VStr s => negb (String.eqb s EmptyString)
  | VList l => match l with [] => false | _ => true end
  | VDict d => match d with [] => false | _ => true end
  end.

(** [v == n] for an integer literal [n].  Booleans are integers in Python
    and a float equals an integer of the same value. *)
Definition eq_int (v : pyval) (n : Z) : bool :=
  match v with
  | VInt z => Z.eqb z n
  | VBool b => Z.eqb (if b then 1 else 0) n
  | VFloat r => if Req_dec_T r (IZR n) then true else false
  | _ => false
  end.

(** [v == s] for a string literal [s]. *)
Definition eq_str (v : pyval) (s : string) : bool :=
  match v with
  | VStr t => String.eqb t s
  | _ => false
  end.

End Py.
Export Py.

(* ===================================================================== *)
(** ** The world: external state, environment, log, console *)
(* ===================================================================== *)

Inductive level : Type := INFO | ERROR.

(** What an f-string interpolates into a log line. *)
Inductive log_arg : Type :=
  | ArgExn (e : exn)
  | ArgVal (v : pyval)
  | ArgStr (s : string).

Record log_record : Type := LogRecord {
  log_level : level;
  log_text : string;
  log_arg_of : log_arg
}.

(** Requests sent to third-party systems (ghost state). *)
Inductive request : Type :=
  | ReqFetchBalance
  | ReqCreateMarketOrder (symbol side : string) (amount : R)
  | ReqFetchTicker (symbol : string)
  | ReqGasPrice
  | ReqBuildTransaction (params : pyval)
  | ReqSendRawTransaction (raw : pyval)
  | ReqWaitForReceipt
  | ReqGetTrade (trade_hash : string)
  | ReqReadAbiFile
  | ReqLoggingBasicConfig (lvl : level)
  | ReqHistory (symbol period : string).

Record world (X : Type) : Type := World {
  ext : X;                           (* state of the external systems *)
  environ : gmap string string;      (* os.environ *)
  logs : list log_record;            (* records emitted through logging *)
  requests : list request;           (* requests sent so far *)
  stdout : list (string * option pyval)   (* lines written by print *)
}.
Arguments World {X}.
Arguments ext {X}.
Arguments environ {X}.
Arguments logs {X}.
Arguments requests {X}.
Arguments stdout {X}.

(** A computation over world [W] that returns or raises. *)
Definition M (W A : Type) : Type := W -> outcome A * W.

Definition ret {W A} (a : A) : M W A := fun w => (Returns a, w).

Definition raise {W A} (e : exn) : M W A := fun w => (Raises e, w).

Definition bind {W A B} (m : M W A) (k : A -> M W B) : M W B :=
  fun w => match m w with
           | (Returns a, w') => k a w'
           | (Raises e, w') => (Raises e, w')
           end.

(** [try: body except Exception as e: handler e] *)
Definition try_except {W A} (body : M W A) (handler : exn -> M W A) : M W A :=
  fun w => match body w with
           | (Returns a, w') => (Returns a, w')
           | (Raises e, w') => handler e w'
           end.

(** Lift a pure partial operation (subscripting, conversion). *)
Definition lift {W A} (o : outcome A) : M W A := fun w => (o, w).

Notation "x <- c ;; k" := (bind c (fun x => k))
  (at level 100, c at next level, right associativity).
Notation "c ;;; k" := (bind c (fun _ => k))
  (at level 100, right associativity).

Section WorldOps.
Context {X : Type}.

(** The world after one more log record. *)
Definition with_log (w : world X) (r : log_record) : world X :=
  World (ext w) (environ w) (logs w ++ [r]) (requests w) (stdout w).

(** The world after request [r] moved the external systems to [x']. *)
Definition with_request (w : world X) (r : request) (x' : X) : world X :=
  World x' (environ w) (logs w) (requests w ++ [r]) (stdout w).

Definition log (l : level) (text : string) (a : log_arg) : M (world X) unit :=
  fun w => (Returns tt, with_log w (LogRecord l text a)).

(** [print(f"text{arg}")] *)
Definition print (text : string) (arg : option pyval) : M (world X) unit :=
  fun w => (Returns tt,
            World (ext w) (environ w) (logs w) (requests w)
                  (stdout w ++ [(text, arg)])).

(** [os.getenv(name)] *)
Definition getenv (name : string) : M (world X) (option string) :=
  fun w => (Returns (environ w !! name), w).

(** [load_dotenv()]: the dotenv library rewrites the environment. *)
Definition run_load_dotenv (load_dotenv : gmap string string -> gmap string string)
  : M (world X) unit :=
  fun w => (Returns tt,
            World (ext w) (load_dotenv (environ w)) (logs w) (requests w) (stdout w)).

(** Send one request to a third-party client. *)
Definition call {A} (r : request) (op : X -> outcome A * X) : M (world X) A :=
  fun w => let '(o, x') := op (ext w) in (o, with_request w r x').

End WorldOps.

(* ===================================================================== *)
(** ** backend/trading/bybit_connector.py *)
(* ===================================================================== *)

(** The part of the ccxt exchange client that the connector uses. *)
Module Ccxt.
Record bybit (X : Type) : Type := Bybit {
  fetch_balance : X -> outcome pyval * X;
  create_market_order : string -> string -> R -> X -> outcome pyval * X;
  fetch_ticker : string -> X -> outcome pyval * X
}.
Arguments fetch_balance {X}.
Arguments create_market_order {X}.
Arguments fetch_ticker {X}.
End Ccxt.

Module Bybit.
Section BybitTrader.
Context {X : Type}.
Variable exchange : Ccxt.bybit X.
Variable load_dotenv : gmap string string -> gmap string string.

Record BybitTrader : Type := {
  api_key : option string;
  api_secret : option string
}.

(** [a or b] on optional strings: [None] and the empty string are falsy. *)
Definition str_or (a b : option string) : option string :=
  match a with
  | Some s => if String.eqb s EmptyString then b else Some s
  | None => b
  end.

(** [BybitTrader.__init__]; the exchange handle is the section's
    [exchange]. *)
Definition __init__ (key secret : option string) : M (world X) BybitTrader :=
  run_load_dotenv load_dotenv ;;;
  k <- getenv "BYBIT_API_KEY" ;;
  s <- getenv "BYBIT_API_SECRET" ;;
  ret {| api_key := str_or key k; api_secret := str_or secret s |}.

Definition get_account_balance : M (world X) pyval :=
  try_except
    (balance <- call ReqFetchBalance (Ccxt.fetch_balance exchange) ;;
     total <- lift (getitem balance "total") ;;
     total_usdt <- lift (getitem total "USDT") ;;
     free <- lift (getitem balance "free") ;;
     free_usdt <- lift (getitem free "USDT") ;;
     used <- lift (getitem balance "used") ;;
     used_usdt <- lift (getitem used "USDT") ;;
     ret (VDict [("total", total_usdt); ("free", free_usdt); ("used", used_usdt)]))
    (fun e =>
       log ERROR "Balance retrieval failed: " (ArgExn e) ;;;
       ret (VDict [])).

Definition create_market_order (symbol side : string) (amount : R)
  : M (world X) pyval :=
  try_except
    (order <- call (ReqCreateMarketOrder symbol side amount)
                   (Ccxt.create_market_order exchange symbol side amount) ;;
     log INFO "Order created: " (ArgVal order) ;;;
     ret order)
    (fun e =>
       log ERROR "Order creation failed: " (ArgExn e) ;;;
       ret (VDict [])).

Definition get_current_price (symbol : string) : M (world X) pyval :=
  try_except
    (ticker <- call (ReqFetchTicker symbol) (Ccxt.fetch_ticker exchange symbol) ;;
     lift (getitem ticker "last"))
    (fun e =>
       log ERROR "Price retrieval failed: " (ArgExn e) ;;;
       ret (VFloat 0)).

Definition main : M (world X) unit :=
  _ <- __init__ None None ;;
  balance <- get_account_balance ;;
  print "Account Balance: " (Some balance) ;;;
  btc_price <- get_current_price "BTC/USDT" ;;
  print "Current BTC Price: $" (Some btc_price).

End BybitTrader.
End Bybit.

(* ===================================================================== *)
(** ** backend/blockchain/blockchain_integration.py *)
(* ===================================================================== *)

(** The part of web3 that the verifier uses.  Contract objects, bound
    contract functions, signed transactions and transaction hashes are
    opaque.  Operations that only work on local data are pure; those that
    talk to the node thread the external state. *)
Module Web3.
Record client (X : Type) : Type := Client {
  contract_t : Type;
  function_t : Type;
  prepared_t : Type;
  signed_t : Type;
  hash_t : Type;
  (* w3.eth.contract(address=..., abi=...) *)
  eth_contract : option string -> pyval -> outcome contract_t;
  (* contract.functions.recordTrade / contract.functions.getTrade *)
  functions_recordTrade : contract_t -> outcome function_t;
  functions_getTrade : contract_t -> outcome function_t;
  (* f(args) *)
  bind_args : function_t -> list pyval -> outcome prepared_t;
  (* w3.eth.default_account *)
  eth_default_account : pyval;
  (* w3.eth.gas_price *)
  eth_gas_price : X -> outcome pyval * X;
  (* f(args).build_transaction(params) *)
  build_transaction : prepared_t -> pyval -> X -> outcome pyval * X;
  (* f(args).call() *)
  function_call : prepared_t -> X -> outcome pyval * X;
  (* w3.eth.account.sign_transaction(transaction, private_key=...) *)
  sign_transaction : pyval -> option string -> outcome signed_t;
  (* signed_txn.rawTransaction *)
  rawTransaction : signed_t -> outcome pyval;
  (* w3.eth.send_raw_transaction(raw) *)
  send_raw_transaction : pyval -> X -> outcome hash_t * X;
  (* w3.eth.wait_for_transaction_receipt(tx_hash) *)
  wait_for_transaction_receipt : hash_t -> X -> outcome pyval * X;
  (* tx_hash.hex() *)
  hex : hash_t -> string
}.
Arguments contract_t {X}.
Arguments function_t {X}.
Arguments prepared_t {X}.
Arguments signed_t {X}.
Arguments hash_t {X}.
Arguments eth_contract {X}.
Arguments functions_recordTrade {X}.
Arguments functions_getTrade {X}.
Arguments bind_args {X}.
Arguments eth_default_account {X}.
Arguments eth_gas_price {X}.
Arguments build_transaction {X}.
Arguments function_call {X}.
Arguments sign_transaction {X}.
Arguments rawTransaction {X}.
Arguments send_raw_transaction {X}.
Arguments wait_for_transaction_receipt {X}.
Arguments hex {X}.
End Web3.

Module Blockchain.
Section BlockchainVerifier.
Context {X : Type}.
Variable w3 : Web3.client X.
Variable load_dotenv : gmap string string -> gmap string string.
(** [json.load(open('blockchain/smart_contracts/TradeVerification_abi.json'))] *)
Variable read_abi_file : X -> outcome pyval * X.

Record BlockchainVerifier : Type := {
  provider_url : string;
  contract_address : option string;
  contract_abi : pyval
}.

Definition load_contract_abi : M (world X) pyval :=
  try_except
    (call ReqReadAbiFile read_abi_file)
    (fun e =>
       log ERROR "ABI loading failed: " (ArgExn e) ;;;
       ret (VList [])).

Definition __init__ : M (world X) BlockchainVerifier :=
  run_load_dotenv load_dotenv ;;;
  url <- getenv "BLOCKCHAIN_PROVIDER_URL" ;;
  address <- getenv "TRADE_VERIFICATION_CONTRACT" ;;
  abi <- load_contract_abi ;;
  ret {| provider_url := default "https://mainnet.infura.io/v3/YOUR_PROJECT_ID" url;
         contract_address := address;
         contract_abi := abi |}.

(** Lines 52-77 of [record_trade]: everything from building the contract
    object to receiving the receipt. *)
Definition send_trade (self : BlockchainVerifier) (trade_details : pyval)
  : M (world X) (Web3.hash_t w3 * pyval) :=
  contract <- lift (Web3.eth_contract w3 (contract_address self) (contract_abi self)) ;;
  f <- lift (Web3.functions_recordTrade w3 contract) ;;
  symbol <- lift (getitem trade_details "symbol") ;;
  amount <- lift (getitem trade_details "amount") ;;
  price <- lift (getitem trade_details "price") ;;
  timestamp <- lift (getitem trade_details "timestamp") ;;
  prepared <- lift (Web3.bind_args w3 f [symbol; amount; price; timestamp]) ;;
  gas_price <- call ReqGasPrice (Web3.eth_gas_price w3) ;;
  let params := VDict [("from", Web3.eth_default_account w3);
                       ("gas", VInt 100000);
                       ("gasPrice", gas_price)] in
  transaction <- call (ReqBuildTransaction params)
                      (Web3.build_transaction w3 prepared params) ;;
  private_key <- getenv "BLOCKCHAIN_PRIVATE_KEY" ;;
  signed_txn <- lift (Web3.sign_transaction w3 transaction private_key) ;;
  raw <- lift (Web3.rawTransaction w3 signed_txn) ;;
  tx_hash <- call (ReqSendRawTransaction raw) (Web3.send_raw_transaction w3 raw) ;;
  tx_receipt <- call ReqWaitForReceipt (Web3.wait_for_transaction_receipt w3 tx_hash) ;;
  ret (tx_hash, tx_receipt).

Definition record_trade (self : BlockchainVerifier) (trade_details : pyval)
  : M (world X) pyval :=
  try_except
    (sent <- send_trade self trade_details ;;
     log INFO "Trade recorded on blockchain: " (ArgStr (Web3.hex w3 (fst sent))) ;;;
     status <- lift (getitem (snd sent) "status") ;;
     ret (VBool (eq_int status 1)))
    (fun e =>
       log ERROR "Blockchain recording failed: " (ArgExn e) ;;;
       ret (VBool false)).

Definition verify_trade (self : BlockchainVerifier) (trade_hash : string)
  : M (world X) pyval :=
  try_except
    (contract <- lift (Web3.eth_contract w3 (contract_address self) (contract_abi self)) ;;
     f <- lift (Web3.functions_getTrade w3 contract) ;;
     prepared <- lift (Web3.bind_args w3 f [VStr trade_hash]) ;;
     trade_details <- call (ReqGetTrade trade_hash) (Web3.function_call w3 prepared) ;;
     symbol <- lift (getindex trade_details 0) ;;
     amount <- lift (getindex trade_details 1) ;;
     price <- lift (getindex trade_details 2) ;;
     timestamp <- lift (getindex trade_details 3) ;;
     ret (VDict [("symbol", symbol); ("amount", amount);
                 ("price", price); ("timestamp", timestamp)]))
    (fun e =>
       log ERROR "Trade verification failed: " (ArgExn e) ;;;
       ret (VDict [])).

(** [main] builds its payload with [time.time()], but the module never
    imports [time]. *)
Definition main : M (world X) unit :=
  _ <- __init__ ;;
  raise (NameError "time").

End BlockchainVerifier.
End Blockchain.

(* ===================================================================== *)
(** ** backend/ai_models/sentiment_analyzer.py *)
(* ===================================================================== *)

(** *** Floating-point cells

    A cell of a numeric array is a real number or NaN.  NaN absorbs every
    arithmetic operation, and [0/0] is NaN.  (A non-zero number divided by
    zero would be an infinity; that case is outside the model.) *)
Module Floats.

#[local] Open Scope R_scope.

Inductive pyfloat : Type :=
  | Num (r : R)
  | NaN.

Definition is_nan (x : pyfloat) : bool :=
  match x with
  | NaN => true
  | Num _ => false
  end.

Definition fadd (x y : pyfloat) : pyfloat :=
  match x, y with
  | Num a, Num b => Num (a + b)
  | _, _ => NaN
  end.

Definition fsub (x y : pyfloat) : pyfloat :=
  match x, y with
  | Num a, Num b => Num (a - b)
  | _, _ => NaN
  end.

Definition fmul (x y : pyfloat) : pyfloat :=
  match x, y with
  | Num a, Num b => Num (a * b)
  | _, _ => NaN
  end.

Definition fdiv (x y : pyfloat) : pyfloat :=
  match x, y with
  | Num a, Num b =>
      if Req_dec_T b 0
      then (if Req_dec_T a 0 then NaN else Num (a / b))
      else Num (a / b)
  | _, _ => NaN
  end.

End Floats.
Export Floats.

(** The part of yfinance and pandas that the analyzer uses.  Data frames
    are opaque.  The two laws are facts about pandas: a frame built with
    no arguments is empty, and adding derived columns to a frame without
    rows leaves it without rows. *)
Module Frames.
Record lib (X : Type) : Type := Lib {
  DataFrame : Type;
  (* yf.Ticker(symbol).history(period=period) *)
  history : string -> string -> X -> outcome DataFrame * X;
  (* data['price_change'] = data['Close'].pct_change()
     data['volume_change'] = data['Volume'].pct_change() *)
  add_pct_changes : DataFrame -> outcome DataFrame;
  (* pd.DataFrame() *)
  empty_frame : DataFrame;
  (* data.empty *)
  is_empty : DataFrame -> bool;
  (* data[['price_change','volume_change','Open','High','Low']].values[-1:] *)
  last_features : DataFrame -> outcome (list (list pyfloat));
  empty_frame_is_empty : is_empty empty_frame = true;
  add_pct_changes_empty :
    forall d d', is_empty d = true -> add_pct_changes d = Returns d' ->
                 is_empty d' = true
}.
Arguments DataFrame {X}.
Arguments history {X}.
Arguments add_pct_changes {X}.
Arguments empty_frame {X}.
Arguments is_empty {X}.
Arguments last_features {X}.
Arguments empty_frame_is_empty {X}.
Arguments add_pct_changes_empty {X}.
End Frames.

Module Sentiment.

#[local] Open Scope R_scope.

(** *** The network of [build_sentiment_model]

    A dense layer is a list of units, each with its weights and bias.
    [build_sentiment_model] fixes the architecture
    (5 inputs, 64 relu, 32 relu, 1 sigmoid; dropout is the identity when
    predicting).  The weights are drawn at random and later changed by
    [train_model]; they are arbitrary here, NaN included. *)

Definition unit_t : Type := (list pyfloat * pyfloat)%type.

Fixpoint dot (w x : list pyfloat) : pyfloat :=
  match w, x with
  | a :: w', b :: x' => fadd (fmul a b) (dot w' x')
  | _, _ => Num 0
  end.

(** [relu] is [max(x, 0)]; TensorFlow's kernel propagates NaN. *)
Definition relu (x : pyfloat) : pyfloat :=
  match x with
  | Num r => Num (Rmax 0 r)
  | NaN => NaN
  end.

Definition sigmoid (x : pyfloat) : pyfloat :=
  match x with
  | Num r => Num (/ (1 + exp (- r)))
  | NaN => NaN
  end.

Definition dense (activation : pyfloat -> pyfloat) (units : list unit_t)
    (x : list pyfloat) : list pyfloat :=
  map (fun u => activation (fadd (dot (fst u) x) (snd u))) units.

Definition dropout (x : list pyfloat) : list pyfloat := x.

Record Model : Type := {
  dense_64 : list unit_t;     (* Dense(64, activation='relu', input_shape=(5,)) *)
  dense_32 : list unit_t;     (* Dense(32, activation='relu') *)
  dense_1 : unit_t            (* Dense(1, activation='sigmoid') *)
}.

(** The shapes that [build_sentiment_model] gives the three kernels:
    5 x 64, 64 x 32 and 32 x 1. *)
Definition well_shaped (m : Model) : bool :=
  Nat.eqb (length (dense_64 m)) 64
  && forallb (fun u => Nat.eqb (length (fst u)) 5) (dense_64 m)
  && Nat.eqb (length (dense_32 m)) 32
  && forallb (fun u => Nat.eqb (length (fst u)) 64) (dense_32 m)
  && Nat.eqb (length (fst (dense_1 m))) 32.

Definition forward (m : Model) (x : list pyfloat) : list pyfloat :=
  dense sigmoid [dense_1 m]
    (dropout (dense relu (dense_32 m)
       (dropout (dense relu (dense_64 m) x)))).

(** [model.predict(batch)]: one output row per input row; a row that is
    not of the declared input width is refused.  The cells are not
    inspected: a NaN goes through the layers. *)
Definition predict (m : Model) (batch : list (list pyfloat))
  : outcome (list (list pyfloat)) :=
  if forallb (fun row => Nat.eqb (length row) 5) batch
  then Returns (map (forward m) batch)
  else Raises (ValueError "input shape").

(** *** StandardScaler *)

(** [None] until [fit] has run; then the per-feature mean and scale. *)
Definition StandardScaler : Type := option (list pyfloat * list pyfloat).

Fixpoint standardise (mean scale row : list pyfloat) : list pyfloat :=
  match mean, scale, row with
  | m :: mean', s :: scale', x :: row' =>
      fdiv (fsub x m) s :: standardise mean' scale' row'
  | _, _, _ => []
  end.

(** [scaler.transform(batch)]: NaN cells are accepted and kept. *)
Definition transform (sc : StandardScaler) (batch : list (list pyfloat))
  : outcome (list (list pyfloat)) :=
  match sc with
  | None => Raises NotFittedError
  | Some (mean, scale) =>
      if forallb (fun row => Nat.eqb (length row) (length mean)) batch
      then Returns (map (standardise mean scale) batch)
      else Raises (ValueError "feature count")
  end.

(** [a[0][0]] on a two-dimensional array. *)
Definition first_cell (a : list (list pyfloat)) : outcome pyfloat :=
  match a with
  | [] => Raises IndexError
  | row :: _ => match row with
                | [] => Raises IndexError
                | v :: _ => Returns v
                end
  end.

Section SentimentAnalyzer.
Context {X : Type}.
Variable pd : Frames.lib X.

Record SentimentAnalyzer : Type := {
  model : Model;
  scaler : StandardScaler
}.

(** The architecture is [forward]; what is left of building the model is
    the choice of its initial weights. *)
Definition build_sentiment_model (initial_weights : Model) : Model :=
  initial_weights.

(** [__init__]: a fresh model and an unfitted scaler. *)
Definition __init__ (initial_weights : Model) : SentimentAnalyzer :=
  {| model := build_sentiment_model initial_weights; scaler := None |}.

Definition fetch_market_data (symbol period : string)
  : M (world X) (Frames.DataFrame pd) :=
  try_except
    (data <- call (ReqHistory symbol period) (Frames.history pd symbol period) ;;
     lift (Frames.add_pct_changes pd data))
    (fun e =>
       log ERROR "Data fetching failed: " (ArgExn e) ;;;
       ret (Frames.empty_frame pd)).

(** The result is [float(sentiment_score)], which keeps NaN. *)
Definition analyze_sentiment (self : SentimentAnalyzer) (symbol : string)
  : M (world X) pyfloat :=
  data <- fetch_market_data symbol "1mo" ;;
  if Frames.is_empty pd data then ret (Num 0.5)
  else
    features <- lift (Frames.last_features pd data) ;;
    features_scaled <- lift (transform (scaler self) features) ;;
    prediction <- lift (predict (model self) features_scaled) ;;
    sentiment_score <- lift (first_cell prediction) ;;
    ret sentiment_score.

End SentimentAnalyzer.
End Sentiment.

(* ===================================================================== *)
(** ** backend/config/app_config.py *)
(* ===================================================================== *)

Module AppConfig.

(** [s.lower()] on ASCII letters. *)
Definition lower_ascii (c : ascii) : ascii :=
  let n := nat_of_ascii c in
  if (Nat.leb 65 n && Nat.leb n 90)%bool then ascii_of_nat (n + 32) else c.

Fixpoint lower (s : string) : string :=
  match s with
  | EmptyString => EmptyString
  | String c s' => String (lower_ascii c) (lower s')
  end.

(** [s.split(',')] *)
Fixpoint split_comma (s : string) : list string :=
  match s with
  | EmptyString => [EmptyString]
  | String c s' =>
      if Ascii.eqb c "," then EmptyString :: split_comma s'
      else match split_comma s' with
           | h :: t => String c h :: t
           | [] => [String c EmptyString]
           end
  end.

(** An [AppConfig] object: its instance attributes, [None] while an
    attribute has not been assigned. *)
Record obj : Type := Obj {
  config : option (gmap string pyval);
  initialized : option bool
}.

(** The interpreter state the module works on: the world, the class
    attribute [AppConfig._instance], the objects allocated so far and the
    handlers added to the root logger. *)
Record proc (X : Type) : Type := Proc {
  os : world X;
  _instance : option nat;
  heap : list obj;
  console_handlers : nat
}.
Arguments Proc {X}.
Arguments os {X}.
Arguments _instance {X}.
Arguments heap {X}.
Arguments console_handlers {X}.

Section AppConfig.
Context {X : Type}.
Variable load_dotenv : gmap string string -> gmap string string.
(** [logging.basicConfig(level=..., filename='logs/aitradeguard.log', ...)] *)
Variable logging_basicConfig : level -> X -> outcome unit * X.
(** The builtins [float(s)] and [int(s)] on strings. *)
Variable float_of_str : string -> option R.
Variable int_of_str : string -> option Z.

(** Run a computation on the world inside the interpreter state. *)
Definition in_os {A} (m : M (world X) A) : M (proc X) A :=
  fun p => let '(o, w') := m (os p) in
           (o, Proc w' (_instance p) (heap p) (console_handlers p)).

Definition read_attrs (self : nat) : M (proc X) obj :=
  fun p => match heap p !! self with
           | Some o => (Returns o, p)
           | None => (Raises (NameError "self"), p)
           end.

Definition write_attrs (self : nat) (o : obj) : M (proc X) unit :=
  fun p => (Returns tt,
            Proc (os p) (_instance p) (<[self := o]> (heap p)) (console_handlers p)).

(** [float(os.getenv(name, n))] with an integer or float default. *)
Definition getenv_float (name : string) (dflt : R) : M (proc X) pyval :=
  v <- in_os (getenv name) ;;
  match v with
  | None => ret (VFloat dflt)
  | Some s => match float_of_str s with
              | Some r => ret (VFloat r)
              | None => raise (ValueError "could not convert string to float")
              end
  end.

(** [int(os.getenv(name, n))] *)
Definition getenv_int (name : string) (dflt : Z) : M (proc X) pyval :=
  v <- in_os (getenv name) ;;
  match v with
  | None => ret (VInt dflt)
  | Some s => match int_of_str s with
              | Some z => ret (VInt z)
              | None => raise (ValueError "invalid literal for int()")
              end
  end.

(** [os.getenv(name)]: [None] when unset. *)
Definition getenv_val (name : string) : M (proc X) pyval :=
  v <- in_os (getenv name) ;;
  ret (match v with Some s => VStr s | None => VNone end).

(** [os.getenv(name, dflt)] *)
Definition getenv_str (name dflt : string) : M (proc X) string :=
  v <- in_os (getenv name) ;;
  ret (default dflt v).

Definition _load_config : M (proc X) (gmap string pyval) :=
  environment <- getenv_str "APP_ENV" "development" ;;
  debug <- getenv_str "DEBUG" "False" ;;
  trading_symbols <- getenv_str "TRADING_SYMBOLS" "BTC/USDT,ETH/USDT" ;;
  max_trade_amount <- getenv_float "MAX_TRADE_AMOUNT" 100 ;;
  bybit_api_key <- getenv_val "BYBIT_API_KEY" ;;
  bybit_api_secret <- getenv_val "BYBIT_API_SECRET" ;;
  blockchain_provider <- getenv_val "BLOCKCHAIN_PROVIDER_URL" ;;
  trade_contract_address <- getenv_val "TRADE_VERIFICATION_CONTRACT" ;;
  model_training_frequency <- getenv_int "MODEL_TRAIN_FREQ" 7 ;;
  sentiment_symbols <- getenv_str "SENTIMENT_SYMBOLS" "BTC,ETH" ;;
  max_consecutive_trades <- getenv_int "MAX_CONSECUTIVE_TRADES" 5 ;;
  risk_threshold <- getenv_float "RISK_THRESHOLD" 0.5 ;;
  ret (<["ENVIRONMENT" := VStr environment]>
      (<["DEBUG_MODE" := VBool (String.eqb (lower debug) "true")]>
      (<["TRADING_SYMBOLS" := VList (map VStr (split_comma trading_symbols))]>
      (<["MAX_TRADE_AMOUNT" := max_trade_amount]>
      (<["BYBIT_API_KEY" := bybit_api_key]>
      (<["BYBIT_API_SECRET" := bybit_api_secret]>
      (<["BLOCKCHAIN_PROVIDER" := blockchain_provider]>
      (<["TRADE_CONTRACT_ADDRESS" := trade_contract_address]>
      (<["MODEL_TRAINING_FREQUENCY" := model_training_frequency]>
      (<["SENTIMENT_SYMBOLS" := VList (map VStr (split_comma sentiment_symbols))]>
      (<["MAX_CONSECUTIVE_TRADES" := max_consecutive_trades]>
      (<["RISK_THRESHOLD" := risk_threshold]> ∅)))))))))))).

(** [self.config.get(key, default)] *)
Definition get_config (self : nat) (key : string) (dflt : pyval) : M (proc X) pyval :=
  o <- read_attrs self ;;
  match config o with
  | None => raise (AttributeError "config")
  | Some d => ret (default dflt (d !! key))
  end.

Definition is_production (self : nat) : M (proc X) bool :=
  v <- get_config self "ENVIRONMENT" VNone ;;
  ret (eq_str v "production").

Definition _setup_logging (self : nat) : M (proc X) unit :=
  v <- get_config self "ENVIRONMENT" VNone ;;
  let log_level := if negb (eq_str v "production") then INFO else ERROR in
  in_os (call (ReqLoggingBasicConfig log_level) (logging_basicConfig log_level)) ;;;
  fun p => (Returns tt,
            Proc (os p) (_instance p) (heap p) (S (console_handlers p))).

Definition critical_keys : list string :=
  ["BYBIT_API_KEY"; "BYBIT_API_SECRET"; "BLOCKCHAIN_PROVIDER"].

(** The [for] loop of [validate_config]. *)
Fixpoint validate_keys (self : nat) (ks : list string) : M (proc X) bool :=
  match ks with
  | [] => ret true
  | key :: rest =>
      v <- get_config self key VNone ;;
      if negb (truthy v)
      then in_os (log ERROR "Missing critical configuration: " (ArgStr key)) ;;;
           ret false
      else validate_keys self rest
  end.

Definition validate_config (self : nat) : M (proc X) bool :=
  validate_keys self critical_keys.

(** [cls._instance], creating the object on first use. *)
Definition __new__ : M (proc X) nat :=
  fun p => match _instance p with
           | Some l => (Returns l, p)
           | None =>
               let l := length (heap p) in
               (Returns l,
                Proc (os p) (Some l) (heap p ++ [Obj None None]) (console_handlers p))
           end.

Definition __init__ (self : nat) : M (proc X) unit :=
  o <- read_attrs self ;;
  match initialized o with
  | Some _ => ret tt
  | None =>
      in_os (run_load_dotenv load_dotenv) ;;;
      _setup_logging self ;;;
      cfg <- _load_config ;;
      o1 <- read_attrs self ;;
      write_attrs self (Obj (Some cfg) (initialized o1)) ;;;
      o2 <- read_attrs self ;;
      write_attrs self (Obj (config o2) (Some true))
  end.

(** The call [AppConfig()]. *)
Definition AppConfig : M (proc X) nat :=
  self <- __new__ ;;
  __init__ self ;;;
  ret self.

Definition main (config : nat) : M (proc X) unit :=
  valid <- validate_config config ;;
  if valid : bool
  then in_os (print "Configuration is valid!" None) ;;;
       trading_symbols <- get_config config "TRADING_SYMBOLS" VNone ;;
       in_os (print "Trading Symbols: " (Some trading_symbols))
  else in_os (print "Invalid configuration. Please check your .env file." None).

(** The module run as a script: the global [config] is created, then
    [main] runs. *)
Definition script : M (proc X) unit :=
  config <- AppConfig ;;
  main config.

End AppConfig.
End AppConfig.

(* ===================================================================== *)
(** ** RiskGate *)
(* ===================================================================== *)

(** Modelled from the spec: the decision function [decide] of the RiskGate
    component, its [Config] with the buy and sell thresholds, and the step
    of the coordinator that opens a trade intent.  None of them is in the
    four backend modules: [AppConfig._load_config] loads no buy or sell
    threshold, and no function maps a score to a decision. *)
Module RiskGate.

#[local] Open Scope R_scope.

(** Modelled from the spec: the side of a trade intent. *)
Inductive Side : Type := Buy | Sell.



(** Modelled from the spec: the configuration surface of the design
    document; the loaded configuration has no buy or sell threshold. *)
Record Config : Type := {
  maxTradeAmount : R;
  maxConsecutiveTrades : nat;
  riskThreshold : R;
  buyThreshold : R;
  sellThreshold : R;
  symbols : list string
}.





(** Modelled from the spec: the threshold rule of the missing [decide],
    "if score >= buyThreshold, candidate side = Buy; if score <=
    sellThreshold, candidate side = Sell; else Hold". *)
Definition candidate_side (score : R) (config : Config) : option Side :=
  if Rle_dec (buyThreshold config) score then Some Buy
  else if Rle_dec score (sellThreshold config) then Some Sell
  else None.



End RiskGate.

(* ===================================================================== *)
(** ** Concrete clients, used to run the embedding *)
(* ===================================================================== *)

Module Examples.

#[local] Open Scope R_scope.

(** An empty world over external state [x]. *)
Definition world0 {X} (x : X) : world X := World x ∅ [] [] [].

(** An exchange that is unreachable: every request times out. *)
Definition down_exchange : Ccxt.bybit unit :=
  Ccxt.Bybit unit
    (fun x => (Raises (ClientError "timeout"), x))
    (fun _ _ _ x => (Raises (ClientError "timeout"), x))
    (fun _ x => (Raises (ClientError "timeout"), x)).

(** An exchange that fills every market order and numbers the orders it
    creates; its state is the number of orders so far. *)
Definition counting_exchange : Ccxt.bybit nat :=
  Ccxt.Bybit nat
    (fun n => (Returns (VDict [("total", VDict [("USDT", VFloat 100)]);
                               ("free", VDict [("USDT", VFloat 100)]);
                               ("used", VDict [("USDT", VFloat 0)])]), n))
    (fun symbol side _ n =>
       (Returns (VDict [("id", VInt (Z.of_nat (S n)));
                        ("symbol", VStr symbol);
                        ("side", VStr side)]), S n))
    (fun _ n => (Returns (VDict [("last", VFloat 0)]), n)).

(** A node that mines every transaction; a transaction hash is the number
    of the transaction, and [getTrade] answers with a four-field tuple. *)
Definition mining_node : Web3.client nat :=
  Web3.Client nat unit unit (list pyval) pyval nat
    (fun _ _ => Returns tt)
    (fun _ => Returns tt)
    (fun _ => Returns tt)
    (fun _ args => Returns args)
    (VStr "0xACCOUNT")
    (fun n => (Returns (VInt 20), n))
    (fun args params n => (Returns (VDict [("args", VList args); ("params", params)]), n))
    (fun _ n => (Returns (VList [VStr "BTC/USDT"; VFloat 0.1; VInt 50000; VInt 1700000000]), n))
    (fun tx _ => Returns tx)
    (fun signed => Returns signed)
    (fun _ n => (Returns (S n), S n))
    (fun h n => (Returns (VDict [("transactionHash", VInt (Z.of_nat h));
                                 ("status", VInt 1)]), n))
    (fun h => match h with O => "0x0" | 1%nat => "0x1" | _ => "0x2" end).

Definition verifier : Blockchain.BlockchainVerifier :=
  {| Blockchain.provider_url := "http://localhost:8545";
     Blockchain.contract_address := Some "0xCONTRACT";
     Blockchain.contract_abi := VList [] |}.

Definition trade : pyval :=
  VDict [("symbol", VStr "BTC/USDT"); ("amount", VFloat 0.1);
         ("price", VInt 50000); ("timestamp", VInt 1700000000)].


(** The same frames, with a source that serves one row of features. *)
Definition one_row : Frames.lib unit.
Proof.
  refine (Frames.Lib unit (list (list pyfloat))
            (fun _ _ x => (Returns [[Num 0; Num 0; Num 1; Num 1; Num 1]], x))
            (fun d => Returns d)
            []
            (fun d => match d with [] => true | _ => false end)
            (fun d => Returns (skipn (length d - 1) d))
            eq_refl _).
  intros d d' Hd Heq; inversion Heq; subst; exact Hd.
Defined.

Definition zero_model : Sentiment.Model :=
  {| Sentiment.dense_64 := []; Sentiment.dense_32 := [];
     Sentiment.dense_1 := ([], Num 0) |}.

Definition analyzer : Sentiment.SentimentAnalyzer :=
  Sentiment.__init__ zero_model.

Definition fitted_analyzer : Sentiment.SentimentAnalyzer :=
  {| Sentiment.model := zero_model;
     Sentiment.scaler := Some ([Num 0; Num 0; Num 0; Num 0; Num 0],
                               [Num 1; Num 1; Num 1; Num 1; Num 1]) |}.


(** Thresholds that overlap: every score between them is both at least the
    buy threshold and at most the sell threshold. *)
Definition overlapping_thresholds : RiskGate.Config :=
  {| RiskGate.maxTradeAmount := 100;
     RiskGate.maxConsecutiveTrades := 3;
     RiskGate.riskThreshold := 0.5;
     RiskGate.buyThreshold := 0.3;
     RiskGate.sellThreshold := 0.7;
     RiskGate.symbols := ["BTC/USDT"] |}.

(** A fresh interpreter: no [AppConfig] object yet. *)
Definition proc0 (env : gmap string string) : AppConfig.proc unit :=
  AppConfig.Proc (World tt env [] [] []) None [] 0.

(** An interpreter holding one configured [AppConfig] object. *)
Definition configured (cfg : gmap string pyval) : AppConfig.proc unit :=
  AppConfig.Proc (world0 tt) (Some 0%nat) [AppConfig.Obj (Some cfg) (Some true)] 0.

Definition no_dotenv (env : gmap string string) : gmap string string := env.

Definition basicConfig_ok (_ : level) (x : unit) : outcome unit * unit :=
  (Returns tt, x).

Definition no_float (_ : string) : option R := None.
Definition no_int (_ : string) : option Z := None.

(** An environment with the exchange credentials but no node URL. *)
Definition partial_env : gmap string string :=
  <["BYBIT_API_KEY" := "key"]> (<["BYBIT_API_SECRET" := "secret"]> ∅).

(** The configuration that [_load_config] builds from an environment
    without numeric settings. *)
Definition config_of (env : gmap string string) : gmap string pyval :=
  match fst (AppConfig._load_config no_float no_int (proc0 env)) with
  | Returns cfg => cfg
  | Raises _ => ∅
  end.

End Examples.

(* ===================================================================== *)
(** ** Vocabulary of the statements *)
(* ===================================================================== *)

(** An error is swallowed when the caller receives the default value and
    the last thing the run left behind is the ERROR record that carries
    the exception. *)
Definition swallowed {X} (dflt : pyval) (text : string) (e : exn)
    (run : outcome pyval * world X) : Prop :=
  fst run = Returns dflt
  /\ last (logs (snd run)) = Some (LogRecord ERROR text (ArgExn e)).

Definition is_order (r : request) : bool :=
  match r with ReqCreateMarketOrder _ _ _ => true | _ => false end.

Definition is_send (r : request) : bool :=
  match r with ReqSendRawTransaction _ => true | _ => false end.

(** How many requests of one kind were sent. *)
Definition count (kind : request -> bool) (rs : list request) : nat :=
  length (filter kind rs).





(** The value [_load_config] stores for a credential or an endpoint. *)
Definition loaded (v : option string) : pyval :=
  match v with Some s => VStr s | None => VNone end.

(** The state after a construction that failed: the environment was
    reloaded, the object [self] is registered and has no attributes. *)
Definition after_failed_construction {X}
    (load_dotenv : gmap string string -> gmap string string)
    (p : AppConfig.proc X) (self : nat) (objects : list AppConfig.obj)
  : AppConfig.proc X :=
  AppConfig.Proc
    (World (ext (AppConfig.os p)) (load_dotenv (environ (AppConfig.os p)))
           (logs (AppConfig.os p)) (requests (AppConfig.os p))
           (stdout (AppConfig.os p)))
    (Some self) objects (AppConfig.console_handlers p).

(** An environment variable counts as missing when it is unset or empty. *)
Definition missing (v : option string) : Prop := v = None \/ v = Some EmptyString.

(** Some cell of the row is NaN. *)
Definition has_nan (row : list pyfloat) : bool := existsb is_nan row.

(** Some weight, or the bias, of the unit is NaN. *)
Definition nan_unit (u : Sentiment.unit_t) : bool :=
  has_nan (fst u) || is_nan (snd u).

(** Some parameter of the network is NaN. *)
Definition nan_model (m : Sentiment.Model) : bool :=
  existsb nan_unit (Sentiment.dense_64 m)
  || existsb nan_unit (Sentiment.dense_32 m)
  || nan_unit (Sentiment.dense_1 m).

(** The docstring of [analyze_sentiment]: "Sentiment score (0-1)". *)
Definition unit_interval_score (score : pyfloat) : Prop :=
  exists r, score = Num r /\ (0 <= r <= 1)%R.

(* ===================================================================== *)
(** ** Further vocabulary *)
(* ===================================================================== *)

(** [",".join(l)] *)
Fixpoint join_comma (l : list string) : string :=
  match l with
  | [] => EmptyString
  | s :: rest =>
      match rest with
      | [] => s
      | _ :: _ => String.append s (String "," (join_comma rest))
      end
  end.

(** The number of commas in a string. *)
Fixpoint commas (s : string) : nat :=
  match s with
  | EmptyString => 0
  | String c s' => (if Ascii.eqb c "," then 1 else 0) + commas s'
  end.

(** The keys of the dict literal in [_load_config]. *)
Definition config_keys : list string :=
  ["ENVIRONMENT"; "DEBUG_MODE"; "TRADING_SYMBOLS"; "MAX_TRADE_AMOUNT";
   "BYBIT_API_KEY"; "BYBIT_API_SECRET"; "BLOCKCHAIN_PROVIDER";
   "TRADE_CONTRACT_ADDRESS"; "MODEL_TRAINING_FREQUENCY"; "SENTIMENT_SYMBOLS";
   "MAX_CONSECUTIVE_TRADES"; "RISK_THRESHOLD"].

(** A numeric setting is acceptable when it is unset or its text converts. *)
Definition parses {A} (conv : string -> option A) (v : option string) : Prop :=
  match v with
  | None => True
  | Some s => is_Some (conv s)
  end.

(** What [float(os.getenv(name, dflt))] evaluates to, if it does. *)
Definition float_setting (conv : string -> option R) (v : option string) (dflt : R)
  : option pyval :=
  match v with
  | None => Some (VFloat dflt)
  | Some s => VFloat <$> conv s
  end.

(** What [int(os.getenv(name, dflt))] evaluates to, if it does. *)
Definition int_setting (conv : string -> option Z) (v : option string) (dflt : Z)
  : option pyval :=
  match v with
  | None => Some (VInt dflt)
  | Some s => VInt <$> conv s
  end.

(** The dict literal of [_load_config], given the environment and the
    four converted numbers. *)
Definition config_dict (env : gmap string string)
    (max_trade_amount model_training_frequency max_consecutive_trades
       risk_threshold : pyval) : gmap string pyval :=
  <["ENVIRONMENT" := VStr (default "development" (env !! "APP_ENV"))]>
  (<["DEBUG_MODE" :=
       VBool (String.eqb (AppConfig.lower (default "False" (env !! "DEBUG"))) "true")]>
  (<["TRADING_SYMBOLS" :=
       VList (map VStr (AppConfig.split_comma
                          (default "BTC/USDT,ETH/USDT" (env !! "TRADING_SYMBOLS"))))]>
  (<["MAX_TRADE_AMOUNT" := max_trade_amount]>
  (<["BYBIT_API_KEY" := loaded (env !! "BYBIT_API_KEY")]>
  (<["BYBIT_API_SECRET" := loaded (env !! "BYBIT_API_SECRET")]>
  (<["BLOCKCHAIN_PROVIDER" := loaded (env !! "BLOCKCHAIN_PROVIDER_URL")]>
  (<["TRADE_CONTRACT_ADDRESS" := loaded (env !! "TRADE_VERIFICATION_CONTRACT")]>
  (<["MODEL_TRAINING_FREQUENCY" := model_training_frequency]>
  (<["SENTIMENT_SYMBOLS" :=
       VList (map VStr (AppConfig.split_comma
                          (default "BTC,ETH" (env !! "SENTIMENT_SYMBOLS"))))]>
  (<["MAX_CONSECUTIVE_TRADES" := max_consecutive_trades]>
  (<["RISK_THRESHOLD" := risk_threshold]> ∅))))))))))).

(** The value stored under [key] is the list of the comma-separated
    pieces of [text]. *)
Definition symbol_list (cfg : gmap string pyval) (key text : string) : Prop :=
  exists pieces,
    cfg !! key = Some (VList (map VStr pieces))
    /\ join_comma pieces = text
    /\ length pieces = S (commas text)
    /\ Forall (fun piece => commas piece = 0%nat) pieces.

(** The requests a run of [send_trade] can have sent when it stops: a
    prefix of gas price, build, send, wait. *)
Definition sent_shape (l : list request) : bool :=
  match l with
  | [] => true
  | [ReqGasPrice] => true
  | [ReqGasPrice; ReqBuildTransaction _] => true
  | [ReqGasPrice; ReqBuildTransaction _; ReqSendRawTransaction _] => true
  | [ReqGasPrice; ReqBuildTransaction _; ReqSendRawTransaction _;
     ReqWaitForReceipt] => true
  | _ => false
  end.

(** [balance[section]['USDT']] *)
Definition usdt_of (balance : pyval) (section : string) : outcome pyval :=
  match getitem balance section with
  | Returns part => getitem part "USDT"
  | Raises e => Raises e
  end.

(** The first of the critical keys whose stored value is falsy. *)
Definition first_missing (d : gmap string pyval) (ks : list string) : option string :=
  find (fun k => negb (truthy (default VNone (d !! k)))) ks.

Module MoreExamples.

#[local] Open Scope R_scope.

(** A node that mines every transaction but reports it as reverted. *)
Definition reverting_node : Web3.client nat :=
  Web3.Client nat unit unit (list pyval) pyval nat
    (fun _ _ => Returns tt)
    (fun _ => Returns tt)
    (fun _ => Returns tt)
    (fun _ args => Returns args)
    (VStr "0xACCOUNT")
    (fun n => (Returns (VInt 20), n))
    (fun args params n => (Returns (VDict [("args", VList args); ("params", params)]), n))
    (fun _ n => (Returns (VList [VStr "BTC/USDT"; VFloat 0.1]), n))
    (fun tx _ => Returns tx)
    (fun signed => Returns signed)
    (fun _ n => (Returns (S n), S n))
    (fun h n => (Returns (VDict [("status", VInt 0)]), n))
    (fun _ => "0x1").

(** A payload that lacks its price. *)
Definition trade_without_price : pyval :=
  VDict [("symbol", VStr "BTC/USDT"); ("amount", VFloat 0.1);
         ("timestamp", VInt 1700000000)].

(** An exchange whose balance has no USDT entry and whose ticker has no
    last price. *)
Definition sparse_exchange : Ccxt.bybit unit :=
  Ccxt.Bybit unit
    (fun x => (Returns (VDict [("total", VDict [("BTC", VFloat 1)]);
                               ("free", VDict [("BTC", VFloat 1)]);
                               ("used", VDict [("BTC", VFloat 0)])]), x))
    (fun _ _ _ x => (Returns (VDict []), x))
    (fun _ x => (Returns (VDict [("bid", VFloat 1)]), x)).

(** An environment that selects production and has all three critical
    settings. *)
Definition production_env : gmap string string :=
  <["APP_ENV" := "production"]>
  (<["BYBIT_API_KEY" := "key"]>
  (<["BYBIT_API_SECRET" := "secret"]>
  (<["BLOCKCHAIN_PROVIDER_URL" := "http://localhost:8545"]> ∅))).

(** An environment with every credential and endpoint that the backend
    reads. *)
Definition full_env : gmap string string :=
  <["BYBIT_API_KEY" := "key"]>
  (<["BYBIT_API_SECRET" := "secret"]>
  (<["BLOCKCHAIN_PROVIDER_URL" := "http://localhost:8545"]>
  (<["BLOCKCHAIN_PRIVATE_KEY" := "0xKEY"]>
  (<["TRADE_VERIFICATION_CONTRACT" := "0xCONTRACT"]> ∅)))).

(** An exchange client without credentials: the public ticker is served,
    the private calls are refused. *)
Definition locked_exchange : Ccxt.bybit unit :=
  Ccxt.Bybit unit
    (fun x => (Raises (ClientError "AuthenticationError"), x))
    (fun _ _ _ x => (Raises (ClientError "AuthenticationError"), x))
    (fun _ x => (Returns (VDict [("last", VFloat 50000)]), x)).

(** An environment with a trade amount that is not a number. *)
Definition bad_amount_env : gmap string string :=
  <["MAX_TRADE_AMOUNT" := "lots"]> ∅.

(** The ABI file is not there. *)
Definition no_abi_file (x : nat) : outcome pyval * nat :=
  (Raises (ClientError "No such file or directory"), x).

(** A small pandas.  A frame is a list of daily bars, together with the two
    derived columns once they have been added. *)
Record bar : Type := Bar {
  b_open : pyfloat;
  b_high : pyfloat;
  b_low : pyfloat;
  b_close : pyfloat;
  b_volume : pyfloat
}.

Record frame : Type := Frame {
  bars : list bar;
  price_change : option (list pyfloat);
  volume_change : option (list pyfloat)
}.

Fixpoint pct_change_from (prev : pyfloat) (xs : list pyfloat) : list pyfloat :=
  match xs with
  | [] => []
  | x :: xs' => fdiv (fsub x prev) prev :: pct_change_from x xs'
  end.

(** [Series.pct_change()]: the change relative to the entry before; the
    first entry has none before it and gets NaN. *)
Definition pct_change (xs : list pyfloat) : list pyfloat :=
  match xs with
  | [] => []
  | x :: xs' => NaN :: pct_change_from x xs'
  end.

Definition with_pct_changes (f : frame) : frame :=
  Frame (bars f)
        (Some (pct_change (map b_close (bars f))))
        (Some (pct_change (map b_volume (bars f)))).

Fixpoint feature_rows (pc vc : list pyfloat) (bs : list bar) : list (list pyfloat) :=
  match pc, vc, bs with
  | p :: pc', v :: vc', b :: bs' =>
      [p; v; b_open b; b_high b; b_low b] :: feature_rows pc' vc' bs'
  | _, _, _ => []
  end.

(** [data[[...five columns...]].values[-1:]]: a missing column is a
    KeyError; otherwise the last row, or no row when there is none. *)
Definition last_feature_row (f : frame) : outcome (list (list pyfloat)) :=
  match price_change f, volume_change f with
  | Some pc, Some vc =>
      let rows := feature_rows pc vc (bars f) in
      Returns (skipn (length rows - 1) rows)
  | None, _ => Raises (KeyError "price_change")
  | _, None => Raises (KeyError "volume_change")
  end.

(** A market that was listed today: its one-month history is a single
    daily bar. *)
Definition new_listing : Frames.lib unit.
Proof.
  refine (Frames.Lib unit frame
            (fun _ _ x =>
               (Returns (Frame [Bar (Num 100) (Num 110) (Num 90) (Num 105) (Num 1000)]
                               None None), x))
            (fun d => Returns (with_pct_changes d))
            (Frame [] None None)
            (fun d => match bars d with [] => true | _ => false end)
            last_feature_row
            eq_refl _).
  intros d d' Hd Heq; inversion Heq; subst; exact Hd.
Defined.

(** A model with the shapes of [build_sentiment_model] and all weights
    zero. *)
Definition zero_unit (inputs : nat) : Sentiment.unit_t :=
  (repeat (Num 0) inputs, Num 0).

Definition shaped_model : Sentiment.Model :=
  {| Sentiment.dense_64 := repeat (zero_unit 5) 64;
     Sentiment.dense_32 := repeat (zero_unit 64) 32;
     Sentiment.dense_1 := zero_unit 32 |}.

(** An analyzer whose scaler has been fitted (mean 0, scale 1). *)
Definition trained_analyzer : Sentiment.SentimentAnalyzer :=
  {| Sentiment.model := shaped_model;
     Sentiment.scaler := Some (repeat (Num 0) 5, repeat (Num 1) 5) |}.


End MoreExamples.

(* ===================================================================== *)
(** * Properties *)
(* ===================================================================== *)

(** ** The string helpers on the defaults of [_load_config] *)

Example split_comma_trading_symbols :
  AppConfig.split_comma "BTC/USDT,ETH/USDT" = ["BTC/USDT"; "ETH/USDT"].
Proof. reflexivity. Qed.

Example split_comma_edge_cases :
  AppConfig.split_comma EmptyString = [EmptyString]
  /\ AppConfig.split_comma "BTC," = ["BTC"; EmptyString]
  /\ AppConfig.split_comma "BTC" = ["BTC"].
Proof. repeat split; reflexivity. Qed.

Example lower_debug_flag :
  AppConfig.lower "True" = "true" /\ AppConfig.lower "False" = "false".
Proof. split; reflexivity. Qed.

(** ** Stepping through a computation *)

Lemma bind_returns {W A B} (m : M W A) (k : A -> M W B) w a w' :
  m w = (Returns a, w') -> bind m k w = k a w'.
Proof. intros H; unfold bind; rewrite H; reflexivity. Qed.

Lemma bind_raises {W A B} (m : M W A) (k : A -> M W B) w e w' :
  m w = (Raises e, w') -> bind m k w = (Raises e, w').
Proof. intros H; unfold bind; rewrite H; reflexivity. Qed.

Lemma try_returns {W A} (body : M W A) handler w a w' :
  body w = (Returns a, w') -> try_except body handler w = (Returns a, w').
Proof. intros H; unfold try_except; rewrite H; reflexivity. Qed.

Lemma try_raises {W A} (body : M W A) handler w e w' :
  body w = (Raises e, w') -> try_except body handler w = handler e w'.
Proof. intros H; unfold try_except; rewrite H; reflexivity. Qed.

Lemma call_step {X A} (r : request) (op : X -> outcome A * X) (w : world X) o x' :
  op (ext w) = (o, x') -> call r op w = (o, with_request w r x').
Proof. intros H; unfold call; rewrite H; reflexivity. Qed.

(** A handler that logs the exception and returns a default always
    returns. *)
Lemma log_and_default {X A} (text : string) (dflt : A) (e : exn) (w : world X) :
  (log ERROR text (ArgExn e) ;;; ret dflt) w
  = (Returns dflt, with_log w (LogRecord ERROR text (ArgExn e))).
Proof. reflexivity. Qed.

(** ** The exchange connector *)

(** C10.  When the ticker request raises, [get_current_price] returns
    [0.0]; a ticker whose last price is [0.0] gives the same return value,
    so the caller cannot tell the two apart. *)
Theorem get_current_price_failure_is_zero :
  forall {X Y} (exchange : Ccxt.bybit X) (symbol : string) (w : world X) e x',
    Ccxt.fetch_ticker exchange symbol (ext w) = (Raises e, x') ->
    fst (Bybit.get_current_price exchange symbol w) = Returns (VFloat 0)
    /\ forall (market : Ccxt.bybit Y) (v : world Y) ticker y',
         Ccxt.fetch_ticker market symbol (ext v) = (Returns ticker, y') ->
         getitem ticker "last" = Returns (VFloat 0) ->
         fst (Bybit.get_current_price market symbol v)
         = fst (Bybit.get_current_price exchange symbol w).
Proof.
  intros X Y exchange symbol w e x' Hfail.
  assert (Hzero : fst (Bybit.get_current_price exchange symbol w) = Returns (VFloat 0)).
  { unfold Bybit.get_current_price.
    erewrite try_raises by (eapply bind_raises, call_step, Hfail).
    reflexivity. }
  split; [exact Hzero|].
  intros market v ticker y' Hok Hlast.
  rewrite Hzero.
  unfold Bybit.get_current_price.
  erewrite try_returns; [reflexivity|].
  erewrite bind_returns by (eapply call_step, Hok).
  unfold lift; rewrite Hlast; reflexivity.
Qed.

Lemma get_current_price_failure_is_zero_witness :
  Ccxt.fetch_ticker Examples.down_exchange "BTC/USDT" tt
    = (Raises (ClientError "timeout"), tt)
  /\ fst (Bybit.get_current_price Examples.down_exchange "BTC/USDT"
            (Examples.world0 tt)) = Returns (VFloat 0)
  /\ fst (Bybit.get_current_price Examples.counting_exchange "BTC/USDT"
            (Examples.world0 O))
     = fst (Bybit.get_current_price Examples.down_exchange "BTC/USDT"
              (Examples.world0 tt)).
Proof.
  split; [reflexivity|].
  destruct (@get_current_price_failure_is_zero unit nat Examples.down_exchange
              "BTC/USDT" (Examples.world0 tt) (ClientError "timeout") tt eq_refl)
    as [Hzero Hsame].
  split; [exact Hzero|].
  apply (Hsame Examples.counting_exchange (Examples.world0 O)
           (VDict [("last", VFloat 0)]) O); reflexivity.
Defined.

(** C1 fails on the connector: with the exchange down, the order request
    raises, the caller gets the empty dict, and all that is left of the
    error is one ERROR record. *)
Lemma failed_order_is_swallowed :
  Ccxt.create_market_order Examples.down_exchange "BTC/USDT" "buy" 1 tt
    = (Raises (ClientError "timeout"), tt)
  /\ swallowed (VDict []) "Order creation failed: " (ClientError "timeout")
       (Bybit.create_market_order Examples.down_exchange "BTC/USDT" "buy" 1
          (Examples.world0 tt)).
Proof. split; [reflexivity|]. split; reflexivity. Qed.

(** C1, amended.  A failing external call is caught inside the operation:
    the exception goes into one ERROR log record and the caller receives
    the default value, [{}] for the balance and the order, [False] for the
    ledger record.  Nothing else is recorded. *)
Theorem external_failures_are_logged_and_defaulted :
  (forall {X} (exchange : Ccxt.bybit X) (w : world X) e x',
      Ccxt.fetch_balance exchange (ext w) = (Raises e, x') ->
      Bybit.get_account_balance exchange w
      = (Returns (VDict []),
         with_log (with_request w ReqFetchBalance x')
           (LogRecord ERROR "Balance retrieval failed: " (ArgExn e))))
  /\ (forall {X} (exchange : Ccxt.bybit X) symbol side amount (w : world X) e x',
      Ccxt.create_market_order exchange symbol side amount (ext w) = (Raises e, x') ->
      Bybit.create_market_order exchange symbol side amount w
      = (Returns (VDict []),
         with_log (with_request w (ReqCreateMarketOrder symbol side amount) x')
           (LogRecord ERROR "Order creation failed: " (ArgExn e))))
  /\ (forall {X} (w3 : Web3.client X) self trade_details (w : world X) e w1,
      Blockchain.send_trade w3 self trade_details w = (Raises e, w1) ->
      Blockchain.record_trade w3 self trade_details w
      = (Returns (VBool false),
         with_log w1 (LogRecord ERROR "Blockchain recording failed: " (ArgExn e)))).
Proof.
  split; [|split].
  - intros X exchange w e x' Hfail.
    unfold Bybit.get_account_balance.
    erewrite try_raises by (eapply bind_raises, call_step, Hfail).
    apply log_and_default.
  - intros X exchange symbol side amount w e x' Hfail.
    unfold Bybit.create_market_order.
    erewrite try_raises by (eapply bind_raises, call_step, Hfail).
    apply log_and_default.
  - intros X w3 self trade_details w e w1 Hfail.
    unfold Blockchain.record_trade.
    erewrite try_raises by (eapply bind_raises, Hfail).
    apply log_and_default.
Qed.

Lemma external_failures_are_logged_and_defaulted_witness :
  Bybit.create_market_order Examples.down_exchange "BTC/USDT" "buy" 1
    (Examples.world0 tt)
  = (Returns (VDict []),
     with_log (with_request (Examples.world0 tt)
                 (ReqCreateMarketOrder "BTC/USDT" "buy" 1) tt)
       (LogRecord ERROR "Order creation failed: " (ArgExn (ClientError "timeout")))).
Proof.
  exact (proj1 (proj2 external_failures_are_logged_and_defaulted) unit
           Examples.down_exchange "BTC/USDT" "buy" 1%R (Examples.world0 tt)
           (ClientError "timeout") tt eq_refl).
Defined.

(** ** Requests are forwarded one for one *)

(** Inversion of a run that returns. *)
Lemma bind_inv {W A B} (m : M W A) (k : A -> M W B) w b w' :
  bind m k w = (Returns b, w') ->
  exists a w1, m w = (Returns a, w1) /\ k a w1 = (Returns b, w').
Proof.
  unfold bind. destruct (m w) as [[a|e] w1]; intros H; [eauto|discriminate].
Qed.

Lemma lift_inv {W A} (o : outcome A) (w w' : W) a :
  lift o w = (Returns a, w') -> o = Returns a /\ w' = w.
Proof. unfold lift; intros H; inversion H; auto. Qed.

Lemma call_inv {X A} (r : request) (op : X -> outcome A * X) (w w' : world X) a :
  call r op w = (Returns a, w') ->
  exists x', op (ext w) = (Returns a, x') /\ w' = with_request w r x'.
Proof.
  unfold call. destruct (op (ext w)) as [o x']; intros H; inversion H; eauto.
Qed.

Lemma getenv_inv {X} (name : string) (w w' : world X) v :
  getenv name w = (Returns v, w') -> v = environ w !! name /\ w' = w.
Proof. unfold getenv; intros H; inversion H; auto. Qed.

Lemma ret_inv {W A} (a b : A) (w w' : W) :
  ret a w = (Returns b, w') -> b = a /\ w' = w.
Proof. unfold ret; intros H; inversion H; auto. Qed.

(** Peel the first step off a returning run in hypothesis [H]. *)
Ltac peel H :=
  let a := fresh "v" in
  let w := fresh "w" in
  let H1 := fresh "Hstep" in
  apply bind_inv in H; destruct H as (a & w & H1 & H);
  first [ apply lift_inv in H1; destruct H1 as [H1 ->]
        | apply call_inv in H1; destruct H1 as (? & H1 & ->)
        | apply getenv_inv in H1; destruct H1 as [-> ->]
        | idtac ].

(** A successful [send_trade] has sent exactly four requests, one of them
    a raw transaction, and has logged nothing. *)
Lemma send_trade_requests {X} (w3 : Web3.client X) self trade_details
    (w w1 : world X) sent :
  Blockchain.send_trade w3 self trade_details w = (Returns sent, w1) ->
  logs w1 = logs w
  /\ exists params raw,
       requests w1 = requests w ++ [ReqGasPrice; ReqBuildTransaction params;
                                    ReqSendRawTransaction raw; ReqWaitForReceipt].
Proof.
  unfold Blockchain.send_trade. intros H.
  repeat peel H.
  apply ret_inv in H. destruct H as [_ ->]. simpl.
  split; [reflexivity|].
  do 2 eexists. rewrite <- !app_assoc. reflexivity.
Qed.

Lemma count_app kind (l1 l2 : list request) :
  count kind (l1 ++ l2) = (count kind l1 + count kind l2)%nat.
Proof. unfold count. rewrite filter_app, length_app. reflexivity. Qed.

(** C2 fails on the connector: the same order submitted twice to an
    exchange that numbers its orders comes back with two references. *)
Lemma repeated_order_gets_second_reference :
  exists o1 w1 o2 w2,
    Bybit.create_market_order Examples.counting_exchange "BTC/USDT" "buy" 1
      (Examples.world0 O) = (Returns o1, w1)
    /\ Bybit.create_market_order Examples.counting_exchange "BTC/USDT" "buy" 1 w1
       = (Returns o2, w2)
    /\ getitem o1 "id" = Returns (VInt 1)
    /\ getitem o2 "id" = Returns (VInt 2)
    /\ count is_order (requests w2) = 2%nat.
Proof. do 4 eexists. repeat split; reflexivity. Qed.

(** C2, amended.  Neither operation takes an idempotency key or remembers
    earlier calls.  Each [create_market_order] forwards one order request
    and hands back what the exchange answers, so a repeated call sends a
    second request and returns the exchange's second answer.  Each
    [record_trade] that returns [True] has sent one raw transaction. *)
Theorem repeated_calls_repeat_requests :
  (forall {X} (exchange : Ccxt.bybit X) symbol side amount (w w1 w2 : world X) r1 r2,
      Bybit.create_market_order exchange symbol side amount w = (r1, w1) ->
      Bybit.create_market_order exchange symbol side amount w1 = (r2, w2) ->
      requests w2 = requests w ++ [ReqCreateMarketOrder symbol side amount;
                                   ReqCreateMarketOrder symbol side amount]
      /\ forall o1 x1 o2 x2,
           Ccxt.create_market_order exchange symbol side amount (ext w)
             = (Returns o1, x1) ->
           Ccxt.create_market_order exchange symbol side amount x1
             = (Returns o2, x2) ->
           r1 = Returns o1 /\ r2 = Returns o2)
  /\ (forall {X} (w3 : Web3.client X) self trade_details (w w' : world X),
      Blockchain.record_trade w3 self trade_details w = (Returns (VBool true), w') ->
      count is_send (requests w') = S (count is_send (requests w))).
Proof.
  split.
  - intros X exchange symbol side amount w w1 w2 r1 r2 H1 H2.
    unfold Bybit.create_market_order, try_except, bind, call, log, ret in H1, H2.
    destruct (Ccxt.create_market_order exchange symbol side amount (ext w))
      as [a1 y1] eqn:E1.
    assert (Hw1 : ext w1 = y1 /\ requests w1
                  = requests w ++ [ReqCreateMarketOrder symbol side amount]).
    { destruct a1; simpl in H1; inversion H1; subst; split; reflexivity. }
    destruct Hw1 as [Hx1 Hr1].
    destruct (Ccxt.create_market_order exchange symbol side amount (ext w1))
      as [a2 y2] eqn:E2.
    split.
    + destruct a2; simpl in H2; inversion H2; subst; simpl;
        rewrite Hr1, <- app_assoc; reflexivity.
    + intros o1 x1 o2 x2 Ho1 Ho2.
      injection Ho1 as Ha1 Hy1.
      rewrite Hx1, Hy1, Ho2 in E2. injection E2 as Ha2 Hy2.
      rewrite Ha1 in H1. rewrite <- Ha2 in H2. simpl in H1, H2.
      injection H1 as <- _. injection H2 as <- _. split; reflexivity.
  - intros X w3 self trade_details w w' H.
    unfold Blockchain.record_trade, try_except in H.
    destruct (bind (Blockchain.send_trade w3 self trade_details) _ w)
      as [[v|e] wb] eqn:Ebody.
    + unfold bind in Ebody.
      destruct (Blockchain.send_trade w3 self trade_details w)
        as [[sent|e] w1] eqn:Esend; [|discriminate Ebody].
      apply send_trade_requests in Esend. destruct Esend as [_ (params & raw & Hreq)].
      unfold log, lift, ret in Ebody. simpl in Ebody.
      destruct (getitem (snd sent) "status"); [|discriminate Ebody].
      inversion Ebody; subst. inversion H; subst. simpl.
      rewrite Hreq, count_app. unfold count at 2. simpl. lia.
    + unfold bind, log, ret in H. simpl in H. inversion H.
Qed.

Lemma repeated_calls_repeat_requests_witness :
  count is_send
    (requests (snd (Blockchain.record_trade Examples.mining_node Examples.verifier
                      Examples.trade (Examples.world0 O))))
  = 1%nat.
Proof.
  exact (proj2 repeated_calls_repeat_requests nat Examples.mining_node
           Examples.verifier Examples.trade (Examples.world0 O) _ eq_refl).
Defined.

(** ** The ledger verifier *)

(** The three ways a run of [record_trade] can go. *)
Lemma record_trade_cases {X} (w3 : Web3.client X) self trade_details (w : world X) :
  (exists e w1,
      Blockchain.send_trade w3 self trade_details w = (Raises e, w1)
      /\ Blockchain.record_trade w3 self trade_details w
         = (Returns (VBool false),
            with_log w1 (LogRecord ERROR "Blockchain recording failed: " (ArgExn e))))
  \/ (exists sent w1 e,
      Blockchain.send_trade w3 self trade_details w = (Returns sent, w1)
      /\ getitem (snd sent) "status" = Raises e
      /\ Blockchain.record_trade w3 self trade_details w
         = (Returns (VBool false),
            with_log (with_log w1 (LogRecord INFO "Trade recorded on blockchain: "
                                     (ArgStr (Web3.hex w3 (fst sent)))))
              (LogRecord ERROR "Blockchain recording failed: " (ArgExn e))))
  \/ (exists sent w1 status,
      Blockchain.send_trade w3 self trade_details w = (Returns sent, w1)
      /\ getitem (snd sent) "status" = Returns status
      /\ Blockchain.record_trade w3 self trade_details w
         = (Returns (VBool (eq_int status 1)),
            with_log w1 (LogRecord INFO "Trade recorded on blockchain: "
                           (ArgStr (Web3.hex w3 (fst sent)))))).
Proof.
  unfold Blockchain.record_trade, try_except, bind.
  destruct (Blockchain.send_trade w3 self trade_details w) as [[sent|e] w1] eqn:Esend.
  - unfold log, lift, ret; simpl.
    destruct (getitem (snd sent) "status") as [status|e] eqn:Estatus.
    + right; right. exists sent, w1, status. auto.
    + right; left. exists sent, w1, e. auto.
  - left. exists e, w1. auto.
Qed.

(** C9.  [record_trade] always returns a boolean and never raises.  The
    boolean is [True] exactly when the transaction went through to a
    receipt whose [status] equals 1; whenever a step raises, sending or
    reading the status, it is [False]. *)
Theorem record_trade_is_total :
  forall {X} (w3 : Web3.client X) self trade_details (w : world X),
    exists b w',
      Blockchain.record_trade w3 self trade_details w = (Returns (VBool b), w')
      /\ (b = true <->
          exists sent w1 status,
            Blockchain.send_trade w3 self trade_details w = (Returns sent, w1)
            /\ getitem (snd sent) "status" = Returns status
            /\ eq_int status 1 = true)
      /\ (forall e w1,
            Blockchain.send_trade w3 self trade_details w = (Raises e, w1) ->
            b = false)
      /\ (forall sent w1 e,
            Blockchain.send_trade w3 self trade_details w = (Returns sent, w1) ->
            getitem (snd sent) "status" = Raises e ->
            b = false).
Proof.
  intros X w3 self trade_details w.
  destruct (record_trade_cases w3 self trade_details w)
    as [(e & w1 & Hsend & Hrun) | [(sent & w1 & e & Hsend & Hst & Hrun)
                                  | (sent & w1 & status & Hsend & Hst & Hrun)]];
    rewrite Hrun; do 2 eexists; (split; [reflexivity|]).
  - repeat split; try reflexivity; try discriminate.
    intros (sent & w2 & status & Hsend' & _). congruence.
  - repeat split; try reflexivity; try discriminate.
    intros (sent' & w2 & status & Hsend' & Hst' & _).
    rewrite Hsend in Hsend'. injection Hsend' as <- <-. congruence.
  - split; [split|split].
    + intros Hb. exists sent, w1, status. auto.
    + intros (sent' & w2 & status' & Hsend' & Hst' & Heq).
      rewrite Hsend in Hsend'. injection Hsend' as <- <-.
      rewrite Hst in Hst'. injection Hst' as <-. exact Heq.
    + intros e w2 Hsend'. congruence.
    + intros sent' w2 e Hsend' Hst'.
      rewrite Hsend in Hsend'. injection Hsend' as <- <-. congruence.
Qed.



(** ** The sentiment analyzer *)

Section SentimentFacts.
#[local] Open Scope R_scope.

(** A sigmoid cell is NaN or a number strictly between 0 and 1. *)
Lemma sigmoid_range (z : pyfloat) :
  Sentiment.sigmoid z = NaN
  \/ exists r, Sentiment.sigmoid z = Num r /\ 0 < r < 1.
Proof.
  destruct z as [x|]; [right|left; reflexivity].
  eexists; split; [reflexivity|].
  pose proof (exp_pos (- x)) as Hexp.
  split.
  - apply Rinv_0_lt_compat; lra.
  - rewrite <- Rinv_1 at 2. apply Rinv_1_lt_contravar; lra.
Qed.

(** The output layer has one unit, so a forward pass yields one cell, and
    that cell is a sigmoid. *)
Lemma forward_is_sigmoid (m : Sentiment.Model) (x : list pyfloat) :
  exists z, Sentiment.forward m x = [Sentiment.sigmoid z].
Proof. unfold Sentiment.forward, Sentiment.dense; simpl; eauto. Qed.

Lemma predict_first_cell (m : Sentiment.Model) batch prediction v :
  Sentiment.predict m batch = Returns prediction ->
  Sentiment.first_cell prediction = Returns v ->
  v = NaN \/ unit_interval_score v.
Proof.
  unfold Sentiment.predict.
  destruct (forallb _ batch); [|discriminate].
  intros Hp; injection Hp as <-.
  destruct batch as [|row rest]; [discriminate|].
  cbn [map]. destruct (forward_is_sigmoid m row) as [z ->].
  cbn [Sentiment.first_cell]. intros Hv; injection Hv as <-.
  destruct (sigmoid_range z) as [->|(r & -> & Hr)]; [left; reflexivity|right].
  exists r. split; [reflexivity|lra].
Qed.

(** NaN is not a score between 0 and 1. *)
Lemma nan_is_no_score : ~ unit_interval_score NaN.
Proof. intros (r & Hr & _). discriminate Hr. Qed.

(** *** NaN goes through the arithmetic *)

Lemma fadd_nan_r (x : pyfloat) : fadd x NaN = NaN.
Proof. destruct x; reflexivity. Qed.

Lemma fmul_nan_r (x : pyfloat) : fmul x NaN = NaN.
Proof. destruct x; reflexivity. Qed.

Lemma is_nan_eq (x : pyfloat) : is_nan x = true -> x = NaN.
Proof. destruct x; [discriminate|reflexivity]. Qed.

Lemma dot_nan (w x : list pyfloat) :
  length w = length x ->
  has_nan w || has_nan x = true ->
  Sentiment.dot w x = NaN.
Proof.
  revert x. induction w as [|a w IH]; intros [|b x] Hlen Hnan;
    cbn [length] in Hlen; try discriminate.
  injection Hlen as Hlen. cbn [Sentiment.dot].
  destruct (has_nan w || has_nan x) eqn:Htail.
  - rewrite (IH x Hlen Htail). apply fadd_nan_r.
  - apply orb_false_elim in Htail as [Hw Hx].
    unfold has_nan in *. cbn [existsb] in Hnan. rewrite Hw, Hx in Hnan.
    rewrite !orb_false_r in Hnan.
    apply orb_prop in Hnan as [Ha|Hb].
    + apply is_nan_eq in Ha. subst a. reflexivity.
    + apply is_nan_eq in Hb. subst b. rewrite fmul_nan_r. reflexivity.
Qed.

(** The scaler keeps a NaN cell. *)
Lemma standardise_nan (mean scale row : list pyfloat) :
  length mean = length row -> length scale = length row ->
  has_nan row = true ->
  has_nan (Sentiment.standardise mean scale row) = true.
Proof.
  revert mean scale. induction row as [|x row IH];
    intros [|m mean] [|s scale] Hm Hs Hnan; cbn [length] in Hm, Hs;
    try discriminate.
  injection Hm as Hm. injection Hs as Hs.
  unfold has_nan in *. cbn [Sentiment.standardise existsb] in *.
  apply orb_prop in Hnan as [Hx|Hrow].
  - apply is_nan_eq in Hx. subst x. reflexivity.
  - rewrite (IH mean scale Hm Hs Hrow). apply orb_true_r.
Qed.

(** A unit whose input, weights or bias hold a NaN puts out NaN. *)
Lemma unit_nan (activation : pyfloat -> pyfloat) (u : Sentiment.unit_t)
    (x : list pyfloat) :
  activation NaN = NaN ->
  length (fst u) = length x ->
  has_nan x || nan_unit u = true ->
  activation (fadd (Sentiment.dot (fst u) x) (snd u)) = NaN.
Proof.
  intros Hact Hlen Hnan.
  destruct (is_nan (snd u)) eqn:Hb.
  - apply is_nan_eq in Hb. rewrite Hb, fadd_nan_r. exact Hact.
  - rewrite dot_nan; [exact Hact|exact Hlen|].
    unfold nan_unit in Hnan. rewrite Hb, orb_false_r in Hnan.
    rewrite orb_comm. exact Hnan.
Qed.

(** A layer which is fed a NaN, or holds one, puts out a NaN. *)
Lemma dense_nan (activation : pyfloat -> pyfloat) (units : list Sentiment.unit_t)
    (x : list pyfloat) :
  activation NaN = NaN ->
  forallb (fun u => Nat.eqb (length (fst u)) (length x)) units = true ->
  units <> [] ->
  has_nan x || existsb nan_unit units = true ->
  has_nan (Sentiment.dense activation units x) = true.
Proof.
  intros Hact Hshape Hne Hnan.
  destruct (has_nan x) eqn:Hx.
  - destruct units as [|u units]; [congruence|].
    cbn [forallb] in Hshape. apply andb_prop in Hshape as [Hu _].
    apply Nat.eqb_eq in Hu.
    unfold Sentiment.dense, has_nan. cbn [map existsb].
    rewrite (unit_nan activation u x Hact Hu) by (rewrite Hx; reflexivity).
    reflexivity.
  - cbn [orb] in Hnan. clear Hne.
    induction units as [|u units IH]; [discriminate|].
    cbn [forallb] in Hshape. apply andb_prop in Hshape as [Hu Hrest].
    apply Nat.eqb_eq in Hu.
    unfold Sentiment.dense, has_nan in *. cbn [map existsb] in *.
    apply orb_prop in Hnan as [Hnu|Hnus].
    + rewrite (unit_nan activation u x Hact Hu) by (rewrite Hnu; apply orb_true_r).
      reflexivity.
    + rewrite (IH Hrest Hnus). apply orb_true_r.
Qed.

Lemma dense_length activation units x :
  length (Sentiment.dense activation units x) = length units.
Proof. unfold Sentiment.dense. apply length_map. Qed.

(** On a network of the built shapes, a NaN among the five inputs or among
    the parameters makes the output NaN. *)
Lemma forward_nan (m : Sentiment.Model) (x : list pyfloat) :
  Sentiment.well_shaped m = true ->
  length x = 5%nat ->
  has_nan x || nan_model m = true ->
  Sentiment.forward m x = [NaN].
Proof.
  unfold Sentiment.well_shaped, nan_model. intros Hshape Hx Hnan.
  apply andb_prop in Hshape as [Hshape H1].
  apply andb_prop in Hshape as [Hshape H32w].
  apply andb_prop in Hshape as [Hshape H32].
  apply andb_prop in Hshape as [H64 H64w].
  apply Nat.eqb_eq in H1, H32, H64.
  unfold Sentiment.forward, Sentiment.dropout.
  set (x1 := Sentiment.dense Sentiment.relu (Sentiment.dense_64 m) x).
  set (x2 := Sentiment.dense Sentiment.relu (Sentiment.dense_32 m) x1).
  assert (Hl1 : length x1 = 64%nat) by (unfold x1; rewrite dense_length; exact H64).
  assert (Hl2 : length x2 = 32%nat) by (unfold x2; rewrite dense_length; exact H32).
  assert (Hn1 : has_nan x1 || existsb nan_unit (Sentiment.dense_32 m)
                || nan_unit (Sentiment.dense_1 m) = true).
  { destruct (has_nan x || existsb nan_unit (Sentiment.dense_64 m)) eqn:Hin.
    - unfold x1. rewrite dense_nan; [reflexivity|reflexivity| | |exact Hin].
      + rewrite Hx. exact H64w.
      + intros Hnil. rewrite Hnil in H64. discriminate H64.
    - apply orb_false_elim in Hin as [Hin1 Hin2].
      rewrite Hin1, Hin2 in Hnan. cbn [orb] in Hnan.
      rewrite <- orb_assoc. rewrite Hnan. apply orb_true_r. }
  assert (Hn2 : has_nan x2 || nan_unit (Sentiment.dense_1 m) = true).
  { destruct (has_nan x1 || existsb nan_unit (Sentiment.dense_32 m)) eqn:Hin.
    - unfold x2. rewrite dense_nan; [reflexivity|reflexivity| | |exact Hin].
      + rewrite Hl1. exact H32w.
      + intros Hnil. rewrite Hnil in H32. discriminate H32.
    - cbn [orb] in Hn1. rewrite Hn1. apply orb_true_r. }
  unfold Sentiment.dense at 1. cbn [map].
  rewrite (unit_nan Sentiment.sigmoid (Sentiment.dense_1 m) x2);
    [reflexivity|reflexivity| |exact Hn2].
  rewrite Hl2. exact H1.
Qed.

Lemma standardise_length (mean scale row : list pyfloat) :
  length mean = length row -> length scale = length row ->
  length (Sentiment.standardise mean scale row) = length row.
Proof.
  revert scale row. induction mean as [|m mean IH]; intros scale row Hm Hs.
  - destruct row; [reflexivity|discriminate].
  - destruct row as [|x row]; [discriminate|].
    destruct scale as [|s scale]; [discriminate|].
    simpl. f_equal. apply IH; [injection Hm|injection Hs]; auto.
Qed.

(** A source that answers, and whose answer takes the derived columns, is
    what [fetch_market_data] returns. *)
Lemma fetch_market_data_serves {X} (pd : Frames.lib X) symbol period (w : world X)
    d x' data :
  Frames.history pd symbol period (ext w) = (Returns d, x') ->
  Frames.add_pct_changes pd d = Returns data ->
  Sentiment.fetch_market_data pd symbol period w
  = (Returns data, with_request w (ReqHistory symbol period) x').
Proof.
  intros Hhist Hadd.
  unfold Sentiment.fetch_market_data, try_except, bind, call, lift.
  rewrite Hhist, Hadd. reflexivity.
Qed.

(** [fetch_market_data] never raises. *)
Lemma fetch_market_data_returns {X} (pd : Frames.lib X) symbol period (w : world X) :
  exists data w', Sentiment.fetch_market_data pd symbol period w = (Returns data, w').
Proof.
  unfold Sentiment.fetch_market_data, try_except.
  match goal with |- context [bind ?m ?k w] =>
    destruct (bind m k w) as [[d|e] wb] end; eauto.
Qed.


End SentimentFacts.

(** What the network's last layer does secure: a run of
    [analyze_sentiment] returns NaN or a score between 0 and 1, or raises
    while turning a non-empty frame into a prediction. *)
Lemma analyze_sentiment_score_cases :
  forall {X} (pd : Frames.lib X) self symbol (w : world X),
    (exists score w',
        Sentiment.analyze_sentiment pd self symbol w = (Returns score, w')
        /\ (score = NaN \/ unit_interval_score score))
    \/ (exists e w' data w1,
        Sentiment.analyze_sentiment pd self symbol w = (Raises e, w')
        /\ Sentiment.fetch_market_data pd symbol "1mo" w = (Returns data, w1)
        /\ Frames.is_empty pd data = false).
Proof.
  intros X pd self symbol w.
  destruct (fetch_market_data_returns pd symbol "1mo" w) as (data & w1 & Hfetch).
  unfold Sentiment.analyze_sentiment.
  rewrite (bind_returns _ _ _ _ _ Hfetch).
  destruct (Frames.is_empty pd data) eqn:Hempty.
  - left. exists (Num 0.5), w1. split; [reflexivity|].
    right. exists 0.5%R. split; [reflexivity|lra].
  - unfold bind, lift, ret.
    destruct (Frames.last_features pd data) as [features|e];
      [|right; exists e, w1, data, w1; auto].
    destruct (Sentiment.transform (Sentiment.scaler self) features) as [scaled|e];
      [|right; exists e, w1, data, w1; auto].
    destruct (Sentiment.predict (Sentiment.model self) scaled) as [prediction|e] eqn:Hp;
      [|right; exists e, w1, data, w1; auto].
    destruct (Sentiment.first_cell prediction) as [v|e] eqn:Hv;
      [|right; exists e, w1, data, w1; auto].
    left. exists v, w1. split; [reflexivity|].
    eapply predict_first_cell; eassumption.
Qed.

(** C6 fails on the code, against the docstring "Sentiment score (0-1)".
    Let the source serve a non-empty frame whose last row has five cells,
    and let the scaler be fitted on five features.  If that row holds a
    NaN (as the first row always does after [pct_change]), or if some
    parameter of the network is NaN, then [analyze_sentiment] returns NaN,
    which is no score between 0 and 1. *)
Theorem analyze_sentiment_returns_nan :
  forall {X} (pd : Frames.lib X) self symbol (w : world X) d x' data row rest
         mean scale,
    Frames.history pd symbol "1mo" (ext w) = (Returns d, x') ->
    Frames.add_pct_changes pd d = Returns data ->
    Frames.is_empty pd data = false ->
    Frames.last_features pd data = Returns (row :: rest) ->
    Sentiment.scaler self = Some (mean, scale) ->
    length mean = 5%nat -> length scale = 5%nat ->
    Forall (fun r => length r = 5%nat) (row :: rest) ->
    Sentiment.well_shaped (Sentiment.model self) = true ->
    has_nan row || nan_model (Sentiment.model self) = true ->
    Sentiment.analyze_sentiment pd self symbol w
    = (Returns NaN, with_request w (ReqHistory symbol "1mo") x')
    /\ ~ unit_interval_score NaN.
Proof.
  intros X pd self symbol w d x' data row rest mean scale
    Hhist Hadd Hne Hfeat Hsc Hmean Hscale Hrows Hshape Hnan.
  split; [|exact nan_is_no_score].
  pose proof (fetch_market_data_serves pd symbol "1mo" w d x' data Hhist Hadd)
    as Hfetch.
  assert (Hrow : length row = 5%nat).
  { rewrite Forall_forall in Hrows. apply Hrows. left. }
  assert (Hwidth : forallb (fun r => Nat.eqb (length r) (length mean)) (row :: rest)
                   = true).
  { apply forallb_forall. intros r Hr. apply Nat.eqb_eq.
    rewrite Forall_forall in Hrows. apply list_elem_of_In in Hr.
    rewrite (Hrows r Hr). symmetry; exact Hmean. }
  assert (Hscaled : forallb (fun r => Nat.eqb (length r) 5)
                      (map (Sentiment.standardise mean scale) (row :: rest)) = true).
  { apply forallb_forall. intros r Hr. apply Nat.eqb_eq.
    apply in_map_iff in Hr. destruct Hr as (r0 & <- & Hr0).
    rewrite Forall_forall in Hrows. apply list_elem_of_In in Hr0.
    rewrite standardise_length; rewrite (Hrows r0 Hr0); auto. }
  assert (Hout : Sentiment.forward (Sentiment.model self)
                   (Sentiment.standardise mean scale row) = [NaN]).
  { apply forward_nan; [exact Hshape| |].
    - rewrite standardise_length; rewrite Hrow; auto.
    - destruct (has_nan row) eqn:Hr.
      + rewrite standardise_nan; [reflexivity| | |exact Hr]; rewrite Hrow; auto.
      + cbn [orb] in Hnan. rewrite Hnan. apply orb_true_r. }
  unfold Sentiment.analyze_sentiment.
  rewrite (bind_returns _ _ _ _ _ Hfetch), Hne.
  unfold bind, lift, ret. rewrite Hfeat.
  unfold Sentiment.transform. rewrite Hsc, Hwidth.
  unfold Sentiment.predict. rewrite Hscaled.
  cbn [map Sentiment.first_cell]. rewrite Hout. reflexivity.
Qed.

(** The failing input: a market listed today.  Its history is one daily
    bar, [pct_change] gives that bar NaN in both derived columns, and the
    trained analyzer answers NaN. *)
Lemma analyze_sentiment_returns_nan_witness :
  Frames.last_features MoreExamples.new_listing
    (MoreExamples.with_pct_changes
       (MoreExamples.Frame
          [MoreExamples.Bar (Num 100) (Num 110) (Num 90) (Num 105) (Num 1000)]
          None None))
  = Returns [[NaN; NaN; Num 100; Num 110; Num 90]]
  /\ Sentiment.analyze_sentiment MoreExamples.new_listing
       MoreExamples.trained_analyzer "NEW-USD" (Examples.world0 tt)
     = (Returns NaN,
        with_request (Examples.world0 tt) (ReqHistory "NEW-USD" "1mo") tt)
  /\ ~ unit_interval_score NaN.
Proof.
  split; [reflexivity|].
  apply (@analyze_sentiment_returns_nan unit MoreExamples.new_listing
           MoreExamples.trained_analyzer "NEW-USD" (Examples.world0 tt)
           (MoreExamples.Frame
              [MoreExamples.Bar (Num 100) (Num 110) (Num 90) (Num 105) (Num 1000)]
              None None)
           tt
           (MoreExamples.with_pct_changes
              (MoreExamples.Frame
                 [MoreExamples.Bar (Num 100) (Num 110) (Num 90) (Num 105) (Num 1000)]
                 None None))
           [NaN; NaN; Num 100; Num 110; Num 90] []
           (repeat (Num 0) 5) (repeat (Num 1) 5)
           eq_refl eq_refl eq_refl eq_refl eq_refl eq_refl eq_refl).
  - repeat constructor.
  - reflexivity.
  - reflexivity.
Defined.

(** A trained analyzer on one row of features returns the network's
    output; a fresh one raises, because its scaler was never fitted. *)
Lemma analyze_sentiment_runs :
  (exists z w',
      Sentiment.analyze_sentiment Examples.one_row Examples.fitted_analyzer
        "BTC-USD" (Examples.world0 tt) = (Returns (Sentiment.sigmoid z), w'))
  /\ (exists w',
      Sentiment.analyze_sentiment Examples.one_row Examples.analyzer
        "BTC-USD" (Examples.world0 tt) = (Raises NotFittedError, w')).
Proof. split; [do 2 eexists|eexists]; reflexivity. Qed.




(** ** The risk gate *)

(** With overlapping thresholds a score between them meets both
    conditions; the buy test comes first. *)
Lemma overlapping_thresholds_pick_buy :
  (RiskGate.buyThreshold Examples.overlapping_thresholds <= 0.5
   <= RiskGate.sellThreshold Examples.overlapping_thresholds)%R
  /\ RiskGate.candidate_side 0.5 Examples.overlapping_thresholds = Some RiskGate.Buy.
Proof.
  split; [simpl; lra|].
  unfold RiskGate.candidate_side. simpl.
  destruct (Rle_dec 0.3 0.5); [reflexivity|lra].
Qed.



(** ** The configuration *)

Section ConfigFacts.
Context {X : Type}.
Variable float_of_str : string -> option R.
Variable int_of_str : string -> option Z.

Lemma in_os_getenv (name : string) (p : AppConfig.proc X) :
  AppConfig.in_os (getenv name) p
  = (Returns (environ (AppConfig.os p) !! name), p).
Proof. destruct p; reflexivity. Qed.

Lemma getenv_str_run (name dflt : string) (p : AppConfig.proc X) :
  AppConfig.getenv_str name dflt p
  = (Returns (default dflt (environ (AppConfig.os p) !! name)), p).
Proof.
  unfold AppConfig.getenv_str.
  rewrite (bind_returns _ _ _ _ _ (in_os_getenv name p)). reflexivity.
Qed.

Lemma getenv_val_run (name : string) (p : AppConfig.proc X) :
  AppConfig.getenv_val name p
  = (Returns (match environ (AppConfig.os p) !! name with
              | Some s => VStr s
              | None => VNone
              end), p).
Proof.
  unfold AppConfig.getenv_val.
  rewrite (bind_returns _ _ _ _ _ (in_os_getenv name p)). reflexivity.
Qed.

Lemma getenv_float_state (name : string) (dflt : R) (p : AppConfig.proc X) :
  snd (AppConfig.getenv_float float_of_str name dflt p) = p.
Proof.
  unfold AppConfig.getenv_float.
  rewrite (bind_returns _ _ _ _ _ (in_os_getenv name p)).
  destruct (environ (AppConfig.os p) !! name) as [s|]; [|reflexivity].
  destruct (float_of_str s); reflexivity.
Qed.

Lemma getenv_int_state (name : string) (dflt : Z) (p : AppConfig.proc X) :
  snd (AppConfig.getenv_int int_of_str name dflt p) = p.
Proof.
  unfold AppConfig.getenv_int.
  rewrite (bind_returns _ _ _ _ _ (in_os_getenv name p)).
  destruct (environ (AppConfig.os p) !! name) as [s|]; [|reflexivity].
  destruct (int_of_str s); reflexivity.
Qed.

(** What a successful [_load_config] has read: the three critical
    settings come straight from their environment variables, the state is
    untouched, and the mapping has no buy or sell threshold. *)
Lemma _load_config_inv (p p' : AppConfig.proc X) cfg :
  AppConfig._load_config float_of_str int_of_str p = (Returns cfg, p') ->
  p' = p
  /\ cfg !! "BYBIT_API_KEY" = Some (loaded (environ (AppConfig.os p) !! "BYBIT_API_KEY"))
  /\ cfg !! "BYBIT_API_SECRET"
     = Some (loaded (environ (AppConfig.os p) !! "BYBIT_API_SECRET"))
  /\ cfg !! "BLOCKCHAIN_PROVIDER"
     = Some (loaded (environ (AppConfig.os p) !! "BLOCKCHAIN_PROVIDER_URL"))
  /\ cfg !! "BUY_THRESHOLD" = None
  /\ cfg !! "SELL_THRESHOLD" = None.
Proof.
  unfold AppConfig._load_config. intros H.
  rewrite !(bind_returns _ _ _ _ _ (getenv_str_run _ _ p)) in H.
  apply bind_inv in H. destruct H as (mta & q1 & Hmta & H).
  pose proof (getenv_float_state "MAX_TRADE_AMOUNT" 100 p) as Hq1.
  rewrite Hmta in Hq1. simpl in Hq1. subst q1.
  rewrite !(bind_returns _ _ _ _ _ (getenv_val_run _ p)) in H.
  apply bind_inv in H. destruct H as (mtf & q2 & Hmtf & H).
  pose proof (getenv_int_state "MODEL_TRAIN_FREQ" 7 p) as Hq2.
  rewrite Hmtf in Hq2. simpl in Hq2. subst q2.
  rewrite !(bind_returns _ _ _ _ _ (getenv_str_run _ _ p)) in H.
  apply bind_inv in H. destruct H as (mct & q3 & Hmct & H).
  pose proof (getenv_int_state "MAX_CONSECUTIVE_TRADES" 5 p) as Hq3.
  rewrite Hmct in Hq3. simpl in Hq3. subst q3.
  apply bind_inv in H. destruct H as (rt & q4 & Hrt & H).
  pose proof (getenv_float_state "RISK_THRESHOLD" 0.5 p) as Hq4.
  rewrite Hrt in Hq4. simpl in Hq4. subst q4.
  apply ret_inv in H. destruct H as [-> ->].
  split; [reflexivity|].
  repeat split; reflexivity.
Qed.

Lemma get_config_run (self : nat) (key : string) (dflt : pyval)
    (p : AppConfig.proc X) o d :
  AppConfig.heap p !! self = Some o ->
  AppConfig.config o = Some d ->
  AppConfig.get_config self key dflt p = (Returns (default dflt (d !! key)), p).
Proof.
  intros Hself Hcfg. unfold AppConfig.get_config, AppConfig.read_attrs, bind.
  rewrite Hself, Hcfg. reflexivity.
Qed.

(** The loop of [validate_config], by induction on the keys left to
    check: the answer is the conjunction of the truth values, and at most
    the log has grown. *)
Lemma validate_keys_spec (self : nat) (ks : list string) (p : AppConfig.proc X) o d :
  AppConfig.heap p !! self = Some o ->
  AppConfig.config o = Some d ->
  exists p',
    AppConfig.validate_keys self ks p
    = (Returns (forallb (fun k => truthy (default VNone (d !! k))) ks), p')
    /\ AppConfig.heap p' = AppConfig.heap p
    /\ AppConfig._instance p' = AppConfig._instance p
    /\ environ (AppConfig.os p') = environ (AppConfig.os p)
    /\ requests (AppConfig.os p') = requests (AppConfig.os p)
    /\ stdout (AppConfig.os p') = stdout (AppConfig.os p).
Proof.
  intros Hself Hcfg. induction ks as [|key rest IH].
  - exists p. repeat split; reflexivity.
  - cbn [AppConfig.validate_keys forallb].
    rewrite (bind_returns _ _ _ _ _ (get_config_run self key VNone p o d Hself Hcfg)).
    destruct (truthy (default VNone (d !! key))); cbn [negb andb].
    + exact IH.
    + eexists. split; [reflexivity|]. destruct p; repeat split; reflexivity.
Qed.

End ConfigFacts.

(** C4 fails on the code.  Nothing validates at start-up and nothing
    stops a process that lacks credentials: in the empty environment the
    trading connector is built with no key and no secret, and its order
    goes to the exchange client, whose refusal is logged and answered
    with the empty dict.  [validate_config] itself accepts a
    configuration without private key and contract address.  And run as
    a script, the configuration module stops with [AttributeError]
    before it validates anything, even when every setting is there. *)
Lemma missing_credentials_do_not_stop_startup :
  (exists trader w1,
     Bybit.__init__ Examples.no_dotenv None None (Examples.world0 tt)
     = (Returns trader, w1)
     /\ Bybit.api_key trader = None
     /\ Bybit.api_secret trader = None
     /\ Bybit.create_market_order MoreExamples.locked_exchange "BTC/USDT" "buy" 1 w1
        = (Returns (VDict []),
           with_log (with_request w1 (ReqCreateMarketOrder "BTC/USDT" "buy" 1) tt)
             (LogRecord ERROR "Order creation failed: "
                (ArgExn (ClientError "AuthenticationError")))))
  /\ (MoreExamples.production_env !! "BLOCKCHAIN_PRIVATE_KEY" = None
      /\ MoreExamples.production_env !! "TRADE_VERIFICATION_CONTRACT" = None
      /\ exists p',
           AppConfig.validate_config 0
             (Examples.configured (Examples.config_of MoreExamples.production_env))
           = (Returns true, p'))
  /\ fst (AppConfig.script Examples.no_dotenv Examples.basicConfig_ok
            Examples.no_float Examples.no_int
            (Examples.proc0 MoreExamples.full_env))
     = Raises (AttributeError "config").
Proof.
  split; [|split].
  - do 2 eexists. split; [reflexivity|]. repeat split; reflexivity.
  - split; [reflexivity|]. split; [reflexivity|].
    eexists. reflexivity.
  - reflexivity.
Qed.

(** C4, amended.  On an object that holds a configuration loaded from the
    environment, [validate_config] returns [False] exactly when one of
    the three critical settings, the API key, the API secret or the node
    URL, is unset or empty; nothing else is looked at.  It leaves the
    stored configuration alone.  Validation is run by [main], which never
    raises: on [False] it prints the complaint and does nothing else, on
    [True] it prints that the configuration is valid and shows the
    trading symbols. *)
Theorem validate_config_reports_missing_credentials :
  forall {X} float_of_str int_of_str (p0 p1 p : AppConfig.proc X) cfg self o,
    AppConfig._load_config float_of_str int_of_str p0 = (Returns cfg, p1) ->
    AppConfig.heap p !! self = Some o ->
    AppConfig.config o = Some cfg ->
    exists b p',
      AppConfig.validate_config self p = (Returns b, p')
      /\ (b = false <->
          missing (environ (AppConfig.os p0) !! "BYBIT_API_KEY")
          \/ missing (environ (AppConfig.os p0) !! "BYBIT_API_SECRET")
          \/ missing (environ (AppConfig.os p0) !! "BLOCKCHAIN_PROVIDER_URL"))
      /\ AppConfig.heap p' = AppConfig.heap p
      /\ (b = false ->
          exists q,
            AppConfig.main self p = (Returns tt, q)
            /\ stdout (AppConfig.os q)
               = stdout (AppConfig.os p)
                 ++ [("Invalid configuration. Please check your .env file.", None)]
            /\ requests (AppConfig.os q) = requests (AppConfig.os p)
            /\ AppConfig.heap q = AppConfig.heap p)
      /\ (b = true ->
          exists q,
            AppConfig.main self p = (Returns tt, q)
            /\ stdout (AppConfig.os q)
               = stdout (AppConfig.os p)
                 ++ [("Configuration is valid!", None);
                     ("Trading Symbols: ",
                      Some (default VNone (cfg !! "TRADING_SYMBOLS")))]
            /\ requests (AppConfig.os q) = requests (AppConfig.os p)
            /\ AppConfig.heap q = AppConfig.heap p).
Proof.
  intros X float_of_str int_of_str p0 p1 p cfg self o Hload Hself Hcfg.
  apply _load_config_inv in Hload.
  destruct Hload as (_ & Hkey & Hsecret & Hprovider & _).
  destruct (validate_keys_spec self AppConfig.critical_keys p o cfg Hself Hcfg)
    as (p' & Hrun & Hheap & _ & _ & Hreq & Hout).
  unfold AppConfig.validate_config. rewrite Hrun.
  do 2 eexists. split; [reflexivity|].
  assert (Htruthy : forall v, truthy (loaded v) = false <-> missing v).
  { intros [s|]; unfold missing; simpl.
    - destruct (String.eqb_spec s EmptyString) as [->|Hne]; simpl.
      + split; auto.
      + split; [discriminate|]. intros [H|H]; congruence.
    - split; auto. }
  split; [|split; [exact Hheap|split]].
  - cbn [forallb AppConfig.critical_keys].
    rewrite Hkey, Hsecret, Hprovider. cbn [from_option]. unfold Datatypes.id.
    pose proof (Htruthy (environ (AppConfig.os p0) !! "BYBIT_API_KEY")) as H1.
    pose proof (Htruthy (environ (AppConfig.os p0) !! "BYBIT_API_SECRET")) as H2.
    pose proof (Htruthy (environ (AppConfig.os p0) !! "BLOCKCHAIN_PROVIDER_URL")) as H3.
    destruct (truthy (loaded (environ (AppConfig.os p0) !! "BYBIT_API_KEY")));
    destruct (truthy (loaded (environ (AppConfig.os p0) !! "BYBIT_API_SECRET")));
    destruct (truthy (loaded (environ (AppConfig.os p0) !! "BLOCKCHAIN_PROVIDER_URL")));
      cbn [andb]; split; intros H; try reflexivity; try discriminate H;
      first [ left; apply H1; reflexivity
            | right; left; apply H2; reflexivity
            | right; right; apply H3; reflexivity
            | destruct H as [H|[H|H]];
              [apply H1 in H|apply H2 in H|apply H3 in H]; discriminate H ].
  - intros Hb.
    unfold AppConfig.main, AppConfig.validate_config.
    rewrite (bind_returns _ _ _ _ _ Hrun), Hb.
    eexists. split; [destruct p'; reflexivity|].
    destruct p' as [w' i' h' c']; simpl in *.
    rewrite Hout, Hreq. repeat split; try reflexivity. exact Hheap.
  - intros Hb.
    unfold AppConfig.main, AppConfig.validate_config.
    rewrite (bind_returns _ _ _ _ _ Hrun), Hb.
    unfold bind at 1. unfold AppConfig.in_os at 1, print at 1.
    set (p2 := AppConfig.Proc _ _ _ _).
    assert (Hself2 : AppConfig.heap p2 !! self = Some o).
    { unfold p2. cbn [AppConfig.heap]. rewrite Hheap. exact Hself. }
    rewrite (bind_returns _ _ _ _ _
               (get_config_run self "TRADING_SYMBOLS" VNone p2 o cfg Hself2 Hcfg)).
    eexists. split; [reflexivity|]. simpl.
    rewrite Hout, Hreq, <- app_assoc. repeat split; try reflexivity. exact Hheap.
Qed.

Lemma validate_config_reports_missing_credentials_witness :
  exists p',
    AppConfig.validate_config 0 (Examples.configured (Examples.config_of Examples.partial_env))
    = (Returns false, p')
    /\ missing (Examples.partial_env !! "BLOCKCHAIN_PROVIDER_URL").
Proof.
  destruct (@validate_config_reports_missing_credentials unit
              Examples.no_float Examples.no_int
              (Examples.proc0 Examples.partial_env)
              (Examples.proc0 Examples.partial_env)
              (Examples.configured (Examples.config_of Examples.partial_env))
              (Examples.config_of Examples.partial_env) 0%nat
              (AppConfig.Obj (Some (Examples.config_of Examples.partial_env))
                 (Some true))
              eq_refl eq_refl eq_refl)
    as (b & p' & Hrun & Hiff & _).
  assert (Hmiss : missing (Examples.partial_env !! "BLOCKCHAIN_PROVIDER_URL"))
    by (left; reflexivity).
  exists p'. split; [|exact Hmiss].
  rewrite Hrun. f_equal. f_equal. apply Hiff. right; right. exact Hmiss.
Defined.

(** Reading the configuration does not touch the interpreter state. *)
Lemma public_operations_keep_state {X} (self : nat) (p : AppConfig.proc X) o d :
  AppConfig.heap p !! self = Some o ->
  AppConfig.config o = Some d ->
  (forall key dflt, snd (AppConfig.get_config self key dflt p) = p)
  /\ snd (AppConfig.is_production self p) = p
  /\ AppConfig.heap (snd (AppConfig.validate_config self p)) = AppConfig.heap p.
Proof.
  intros Hself Hcfg. split; [|split].
  - intros key dflt. rewrite (get_config_run self key dflt p o d Hself Hcfg).
    reflexivity.
  - unfold AppConfig.is_production.
    rewrite (bind_returns _ _ _ _ _
               (get_config_run self "ENVIRONMENT" VNone p o d Hself Hcfg)).
    reflexivity.
  - destruct (validate_keys_spec self AppConfig.critical_keys p o d Hself Hcfg)
      as (p' & Hrun & Hheap & _).
    unfold AppConfig.validate_config. rewrite Hrun. exact Hheap.
Qed.

(** [__init__] on an object without attributes: the environment is
    reloaded and then [_setup_logging] asks for [self.config], which has
    not been assigned yet. *)
Lemma __init___raises {X} load_dotenv basicConfig float_of_str int_of_str
    (self : nat) (p : AppConfig.proc X) :
  AppConfig.heap p !! self = Some (AppConfig.Obj None None) ->
  AppConfig.__init__ load_dotenv basicConfig float_of_str int_of_str self p
  = (Raises (AttributeError "config"),
     AppConfig.Proc
       (World (ext (AppConfig.os p)) (load_dotenv (environ (AppConfig.os p)))
              (logs (AppConfig.os p)) (requests (AppConfig.os p))
              (stdout (AppConfig.os p)))
       (AppConfig._instance p) (AppConfig.heap p) (AppConfig.console_handlers p)).
Proof.
  intros Hself.
  unfold AppConfig.__init__, AppConfig._setup_logging, AppConfig.get_config,
    AppConfig.read_attrs, AppConfig.in_os, run_load_dotenv, bind, raise.
  simpl. rewrite Hself. simpl. rewrite Hself. reflexivity.
Qed.

(** The first call [AppConfig()] of an interpreter. *)
Lemma AppConfig_first_call {X} load_dotenv basicConfig float_of_str int_of_str
    (p : AppConfig.proc X) :
  AppConfig._instance p = None ->
  AppConfig.AppConfig load_dotenv basicConfig float_of_str int_of_str p
  = (Raises (AttributeError "config"),
     after_failed_construction load_dotenv p (length (AppConfig.heap p))
       (AppConfig.heap p ++ [AppConfig.Obj None None])).
Proof.
  destruct p as [w i h c]. simpl. intros ->.
  unfold AppConfig.AppConfig, AppConfig.__new__. unfold bind at 1. simpl.
  unfold bind at 1. rewrite __init___raises; [reflexivity|].
  simpl. apply list_lookup_middle. reflexivity.
Qed.

(** A later call, when the registered object still has no attributes. *)
Lemma AppConfig_later_call {X} load_dotenv basicConfig float_of_str int_of_str
    (p : AppConfig.proc X) (self : nat) :
  AppConfig._instance p = Some self ->
  AppConfig.heap p !! self = Some (AppConfig.Obj None None) ->
  AppConfig.AppConfig load_dotenv basicConfig float_of_str int_of_str p
  = (Raises (AttributeError "config"),
     after_failed_construction load_dotenv p self (AppConfig.heap p)).
Proof.
  destruct p as [w i h c]. simpl. intros -> Hself.
  unfold AppConfig.AppConfig, AppConfig.__new__. unfold bind at 1. simpl.
  unfold bind at 1. rewrite __init___raises; [reflexivity|exact Hself].
Qed.

(** Run as a script, the module stops before [main]: creating the global
    [config] raises. *)
Lemma script_raises {X} load_dotenv basicConfig float_of_str int_of_str
    (p : AppConfig.proc X) :
  AppConfig._instance p = None ->
  fst (AppConfig.script load_dotenv basicConfig float_of_str int_of_str p)
  = Raises (AttributeError "config")
  /\ stdout (AppConfig.os (snd (AppConfig.script load_dotenv basicConfig
                                   float_of_str int_of_str p)))
     = stdout (AppConfig.os p).
Proof.
  intros Hfresh. unfold AppConfig.script.
  rewrite (bind_raises _ _ _ _ _
             (AppConfig_first_call load_dotenv basicConfig float_of_str
                int_of_str p Hfresh)).
  split; reflexivity.
Qed.

(** C8, as the code runs.  In a fresh interpreter every call [AppConfig()]
    raises [AttributeError]: the first call creates the object and fails
    in [_setup_logging] before any configuration is stored; the second
    call finds the same object but, [initialized] never having been set,
    reloads the environment and fails the same way.  No call returns an
    instance. *)
Theorem AppConfig_construction_raises :
  forall {X} load_dotenv basicConfig float_of_str int_of_str (p : AppConfig.proc X),
    AppConfig._instance p = None ->
    exists p1 p2,
      AppConfig.AppConfig load_dotenv basicConfig float_of_str int_of_str p
        = (Raises (AttributeError "config"), p1)
      /\ AppConfig.AppConfig load_dotenv basicConfig float_of_str int_of_str p1
         = (Raises (AttributeError "config"), p2)
      /\ AppConfig._instance p1 = Some (length (AppConfig.heap p))
      /\ AppConfig.heap p1 = AppConfig.heap p ++ [AppConfig.Obj None None]
      /\ AppConfig._instance p2 = AppConfig._instance p1
      /\ AppConfig.heap p2 = AppConfig.heap p1
      /\ environ (AppConfig.os p1) = load_dotenv (environ (AppConfig.os p))
      /\ environ (AppConfig.os p2)
         = load_dotenv (load_dotenv (environ (AppConfig.os p))).
Proof.
  intros X load_dotenv basicConfig float_of_str int_of_str p Hfresh.
  pose proof (AppConfig_first_call load_dotenv basicConfig float_of_str
                int_of_str p Hfresh) as Hfirst.
  set (p1 := after_failed_construction load_dotenv p (length (AppConfig.heap p))
               (AppConfig.heap p ++ [AppConfig.Obj None None])) in *.
  assert (Hself : AppConfig.heap p1 !! length (AppConfig.heap p)
                  = Some (AppConfig.Obj None None))
    by (apply list_lookup_middle; reflexivity).
  pose proof (AppConfig_later_call load_dotenv basicConfig float_of_str
                int_of_str p1 (length (AppConfig.heap p)) eq_refl Hself) as Hsecond.
  exists p1, (after_failed_construction load_dotenv p1 (length (AppConfig.heap p))
                (AppConfig.heap p1)).
  split; [exact Hfirst|]. split; [exact Hsecond|].
  repeat split; reflexivity.
Qed.

Lemma AppConfig_construction_raises_witness :
  AppConfig._instance (Examples.proc0 ∅) = None
  /\ fst (AppConfig.AppConfig Examples.no_dotenv Examples.basicConfig_ok
            Examples.no_float Examples.no_int (Examples.proc0 ∅))
     = Raises (AttributeError "config").
Proof.
  split; [reflexivity|].
  destruct (@AppConfig_construction_raises unit Examples.no_dotenv
              Examples.basicConfig_ok Examples.no_float Examples.no_int
              (Examples.proc0 ∅) eq_refl)
    as (p1 & p2 & Hfirst & _).
  rewrite Hfirst. reflexivity.
Defined.

(* ===================================================================== *)
(** * Further properties *)
(* ===================================================================== *)

(** ** Runs that may raise *)

Lemma bind_run {W A B} (m : M W A) (k : A -> M W B) w o w' :
  bind m k w = (o, w') ->
  (exists e, m w = (Raises e, w') /\ o = Raises e)
  \/ (exists a w1, m w = (Returns a, w1) /\ k a w1 = (o, w')).
Proof.
  unfold bind. destruct (m w) as [[a|e] w1]; intros H.
  - right; eauto.
  - left. injection H as <- <-. eauto.
Qed.

Lemma lift_run {W A} (o o' : outcome A) (w w' : W) :
  lift o w = (o', w') -> o' = o /\ w' = w.
Proof. unfold lift; intros H; injection H as <- <-; auto. Qed.

Lemma call_run {X A} (r : request) (op : X -> outcome A * X) (w w' : world X) o :
  call r op w = (o, w') ->
  exists x', op (ext w) = (o, x') /\ w' = with_request w r x'.
Proof.
  unfold call. destruct (op (ext w)) as [o1 x']; intros H.
  injection H as <- <-. eauto.
Qed.

Lemma getenv_run {X} (name : string) (w w' : world X) o :
  getenv name w = (o, w') -> o = Returns (environ w !! name) /\ w' = w.
Proof. unfold getenv; intros H; injection H as <- <-; auto. Qed.

Lemma ret_run {W A} (a : A) (o : outcome A) (w w' : W) :
  ret a w = (o, w') -> o = Returns a /\ w' = w.
Proof. unfold ret; intros H; injection H as <- <-; auto. Qed.

(** What one step did to the world, whatever its outcome. *)
Ltac step_world Hm :=
  first [ apply lift_run in Hm; destruct Hm as [_ ->]
        | apply call_run in Hm; destruct Hm as (? & _ & ->)
        | apply getenv_run in Hm; destruct Hm as [_ ->] ].

(** Close a goal about the requests sent up to the current state. *)
Ltac requests_so_far :=
  simpl; repeat split; try reflexivity;
  eexists; split;
  [ first [ symmetry; apply app_nil_r | rewrite <- ?app_assoc; reflexivity ]
  | reflexivity ].

(** ** More on the ledger verifier *)

(** Whatever its outcome, a run of [send_trade] logs nothing, leaves the
    environment alone, and stops somewhere along gas price, build, send,
    wait. *)
Lemma send_trade_sent {X} (w3 : Web3.client X) self trade_details
    (w w1 : world X) o :
  Blockchain.send_trade w3 self trade_details w = (o, w1) ->
  logs w1 = logs w /\ environ w1 = environ w /\ stdout w1 = stdout w
  /\ exists l, requests w1 = requests w ++ l /\ sent_shape l = true.
Proof.
  unfold Blockchain.send_trade. intros H.
  repeat (apply bind_run in H;
          destruct H as [(? & Hm & ->) | (? & ? & Hm & H)];
          [ step_world Hm; requests_so_far | step_world Hm ]).
  apply ret_run in H. destruct H as [_ ->]. requests_so_far.
Qed.

Lemma sent_shape_count (l : list request) :
  sent_shape l = true -> (count is_send l <= 1)%nat.
Proof.
  destruct l as [|r1 l]; [intros _; unfold count; simpl; lia|].
  destruct r1; try discriminate.
  destruct l as [|r2 l]; [intros _; unfold count; simpl; lia|].
  destruct r2; try discriminate.
  destruct l as [|r3 l]; [intros _; unfold count; simpl; lia|].
  destruct r3; try discriminate.
  destruct l as [|r4 l]; [intros _; unfold count; simpl; lia|].
  destruct r4; try discriminate.
  destruct l as [|r5 l]; [intros _; unfold count; simpl; lia|discriminate].
Qed.

(** X1.  Whatever happens, one call of [record_trade] sends at most one
    raw transaction: the requests it adds are a prefix of gas price,
    build, send, wait.  It never touches the environment or the console. *)
Theorem record_trade_sends_at_most_one_transaction :
  forall {X} (w3 : Web3.client X) self trade_details (w : world X),
    (count is_send
       (requests (snd (Blockchain.record_trade w3 self trade_details w)))
     <= S (count is_send (requests w)))%nat
    /\ (exists l,
          requests (snd (Blockchain.record_trade w3 self trade_details w))
          = requests w ++ l
          /\ sent_shape l = true)
    /\ environ (snd (Blockchain.record_trade w3 self trade_details w)) = environ w
    /\ stdout (snd (Blockchain.record_trade w3 self trade_details w)) = stdout w.
Proof.
  intros X w3 self trade_details w.
  assert (Hsent : exists o w1,
             Blockchain.send_trade w3 self trade_details w = (o, w1)
             /\ requests (snd (Blockchain.record_trade w3 self trade_details w))
                = requests w1
             /\ environ (snd (Blockchain.record_trade w3 self trade_details w))
                = environ w1
             /\ stdout (snd (Blockchain.record_trade w3 self trade_details w))
                = stdout w1).
  { destruct (record_trade_cases w3 self trade_details w)
      as [(e & w1 & Hsend & Hrun) | [(sent & w1 & e & Hsend & _ & Hrun)
                                    | (sent & w1 & status & Hsend & _ & Hrun)]];
      rewrite Hrun; do 2 eexists; (split; [exact Hsend|]);
      repeat split; reflexivity. }
  destruct Hsent as (o & w1 & Hsend & -> & -> & ->).
  apply send_trade_sent in Hsend.
  destruct Hsend as (_ & Henv & Hout & l & Hreq & Hshape).
  split; [|split; [exists l; auto|auto]].
  rewrite Hreq, count_app. pose proof (sent_shape_count l Hshape). lia.
Qed.

(** X2.  [False] does not mean that nothing was sent: when the transaction
    was mined but its receipt has no [status] or a [status] other than 1,
    [record_trade] returns [False] although one raw transaction went out. *)
Theorem record_trade_false_after_transaction_was_sent :
  forall {X} (w3 : Web3.client X) self trade_details (w w1 : world X) sent,
    Blockchain.send_trade w3 self trade_details w = (Returns sent, w1) ->
    (forall status, getitem (snd sent) "status" = Returns status ->
                    eq_int status 1 = false) ->
    exists w',
      Blockchain.record_trade w3 self trade_details w = (Returns (VBool false), w')
      /\ count is_send (requests w') = S (count is_send (requests w))
      /\ ext w' = ext w1.
Proof.
  intros X w3 self trade_details w w1 sent Hsend Hstatus.
  pose proof (send_trade_requests w3 self trade_details w w1 sent Hsend)
    as (_ & params & raw & Hreq).
  assert (Hcount : count is_send (requests w1) = S (count is_send (requests w))).
  { rewrite Hreq, count_app. unfold count at 2. simpl. lia. }
  destruct (record_trade_cases w3 self trade_details w)
    as [(e & w2 & Hsend' & Hrun) | [(sent' & w2 & e & Hsend' & Hst & Hrun)
                                   | (sent' & w2 & status & Hsend' & Hst & Hrun)]];
    rewrite Hsend in Hsend'; try discriminate Hsend';
    injection Hsend' as <- <-; rewrite Hrun.
  - eexists. split; [reflexivity|]. split; [exact Hcount|reflexivity].
  - rewrite (Hstatus status Hst).
    eexists. split; [reflexivity|]. split; [exact Hcount|reflexivity].
Qed.

Lemma record_trade_false_after_transaction_was_sent_witness :
  exists w',
    Blockchain.record_trade MoreExamples.reverting_node Examples.verifier
      Examples.trade (Examples.world0 O) = (Returns (VBool false), w')
    /\ count is_send (requests w') = 1%nat.
Proof.
  destruct (@record_trade_false_after_transaction_was_sent nat
              MoreExamples.reverting_node Examples.verifier Examples.trade
              (Examples.world0 O) _ _ eq_refl)
    as (w' & Hrun & Hcount & _).
  - intros status Hst. injection Hst as <-. reflexivity.
  - exists w'. split; [exact Hrun|exact Hcount].
Defined.

(** X3.  A payload that lacks one of [symbol], [amount], [price],
    [timestamp] (or is no dict) is refused before the node is contacted:
    [record_trade] returns [False], one ERROR record is logged, and no
    request is sent. *)
Theorem record_trade_incomplete_payload_sends_nothing :
  forall {X} (w3 : Web3.client X) self trade_details (w : world X) key e,
    In key ["symbol"; "amount"; "price"; "timestamp"] ->
    getitem trade_details key = Raises e ->
    exists e',
      Blockchain.record_trade w3 self trade_details w
      = (Returns (VBool false),
         with_log w (LogRecord ERROR "Blockchain recording failed: " (ArgExn e'))).
Proof.
  intros X w3 self trade_details w key e Hkey Hmiss.
  assert (Hsend : exists e', Blockchain.send_trade w3 self trade_details w
                             = (Raises e', w)).
  { unfold Blockchain.send_trade, bind, lift.
    destruct (Web3.eth_contract w3 _ _) as [c|e0]; [|eauto].
    destruct (Web3.functions_recordTrade w3 c) as [f|e0]; [|eauto].
    destruct (getitem trade_details "symbol") as [v1|e1] eqn:E1; [|eauto].
    destruct (getitem trade_details "amount") as [v2|e2] eqn:E2; [|eauto].
    destruct (getitem trade_details "price") as [v3|e3] eqn:E3; [|eauto].
    destruct (getitem trade_details "timestamp") as [v4|e4] eqn:E4; [|eauto].
    exfalso. simpl in Hkey.
    destruct Hkey as [<-|[<-|[<-|[<-|[]]]]]; congruence. }
  destruct Hsend as [e' Hsend]. exists e'.
  unfold Blockchain.record_trade.
  erewrite try_raises by (eapply bind_raises, Hsend).
  apply log_and_default.
Qed.

Lemma record_trade_incomplete_payload_sends_nothing_witness :
  exists e',
    Blockchain.record_trade Examples.mining_node Examples.verifier
      MoreExamples.trade_without_price (Examples.world0 O)
    = (Returns (VBool false),
       with_log (Examples.world0 O)
         (LogRecord ERROR "Blockchain recording failed: " (ArgExn e'))).
Proof.
  apply (@record_trade_incomplete_payload_sends_nothing nat Examples.mining_node
           Examples.verifier MoreExamples.trade_without_price (Examples.world0 O)
           "price" (KeyError "price")).
  - simpl. auto.
  - reflexivity.
Defined.

(** X4.  [verify_trade] reads the first four components of the tuple that
    [getTrade] answers: a shorter tuple ends in [IndexError], which is
    logged and turned into the empty dict; from a longer one the extra
    components are dropped. *)
Theorem verify_trade_needs_four_components :
  forall {X} (w3 : Web3.client X) self trade_hash (w : world X) c f prepared l x',
    Web3.eth_contract w3 (Blockchain.contract_address self)
      (Blockchain.contract_abi self) = Returns c ->
    Web3.functions_getTrade w3 c = Returns f ->
    Web3.bind_args w3 f [VStr trade_hash] = Returns prepared ->
    Web3.function_call w3 prepared (ext w) = (Returns (VList l), x') ->
    ((length l < 4)%nat ->
       Blockchain.verify_trade w3 self trade_hash w
       = (Returns (VDict []),
          with_log (with_request w (ReqGetTrade trade_hash) x')
            (LogRecord ERROR "Trade verification failed: " (ArgExn IndexError))))
    /\ (forall symbol amount price timestamp rest,
          l = symbol :: amount :: price :: timestamp :: rest ->
          Blockchain.verify_trade w3 self trade_hash w
          = (Returns (VDict [("symbol", symbol); ("amount", amount);
                             ("price", price); ("timestamp", timestamp)]),
             with_request w (ReqGetTrade trade_hash) x')).
Proof.
  intros X w3 self trade_hash w c f prepared l x' Hc Hf Hp Hcall.
  assert (Hhead :
    Blockchain.verify_trade w3 self trade_hash w
    = try_except
        (symbol <- lift (getindex (VList l) 0) ;;
         amount <- lift (getindex (VList l) 1) ;;
         price <- lift (getindex (VList l) 2) ;;
         timestamp <- lift (getindex (VList l) 3) ;;
         ret (VDict [("symbol", symbol); ("amount", amount);
                     ("price", price); ("timestamp", timestamp)]))
        (fun e =>
           log ERROR "Trade verification failed: " (ArgExn e) ;;;
           ret (VDict []))
        (with_request w (ReqGetTrade trade_hash) x')).
  { unfold Blockchain.verify_trade, try_except, bind at 1, lift at 1.
    rewrite Hc. unfold bind at 1, lift at 1. rewrite Hf.
    unfold bind at 1, lift at 1. rewrite Hp.
    unfold bind at 1. rewrite (call_step _ _ _ _ _ Hcall). reflexivity. }
  rewrite Hhead. split.
  - intros Hlen.
    destruct l as [|a [|b [|c' [|d rest]]]]; simpl in Hlen; try lia; reflexivity.
  - intros symbol amount price timestamp rest ->. reflexivity.
Qed.

Lemma verify_trade_needs_four_components_witness :
  Blockchain.verify_trade MoreExamples.reverting_node Examples.verifier "0x1"
    (Examples.world0 O)
  = (Returns (VDict []),
     with_log (with_request (Examples.world0 O) (ReqGetTrade "0x1") O)
       (LogRecord ERROR "Trade verification failed: " (ArgExn IndexError))).
Proof.
  apply (proj1 (@verify_trade_needs_four_components nat
                  MoreExamples.reverting_node Examples.verifier "0x1"
                  (Examples.world0 O) tt tt [VStr "0x1"]
                  [VStr "BTC/USDT"; VFloat 0.1] O
                  eq_refl eq_refl eq_refl eq_refl)).
  simpl. lia.
Defined.

(** Loading the ABI never raises: the caller gets the file's content, or
    the empty list and one ERROR record. *)
Lemma load_contract_abi_run {X} (read_abi_file : X -> outcome pyval * X)
    (w : world X) :
  exists abi x' records,
    Blockchain.load_contract_abi read_abi_file w
    = (Returns abi, World x' (environ w) (logs w ++ records)
                      (requests w ++ [ReqReadAbiFile]) (stdout w))
    /\ ((read_abi_file (ext w) = (Returns abi, x') /\ records = [])
        \/ (exists e, read_abi_file (ext w) = (Raises e, x') /\ abi = VList []
                      /\ records = [LogRecord ERROR "ABI loading failed: " (ArgExn e)])).
Proof.
  unfold Blockchain.load_contract_abi, try_except, call.
  destruct (read_abi_file (ext w)) as [[abi|e] x'].
  - exists abi, x', []. split; [|left; auto].
    unfold with_request. simpl. rewrite app_nil_r. reflexivity.
  - exists (VList []), x', [LogRecord ERROR "ABI loading failed: " (ArgExn e)].
    split; [reflexivity|right; eauto].
Qed.

(** The constructor of the verifier, step by step. *)
Lemma blockchain_init_run {X} load_dotenv (read_abi_file : X -> outcome pyval * X)
    (w : world X) :
  exists abi x' records,
    Blockchain.__init__ load_dotenv read_abi_file w
    = (Returns
         {| Blockchain.provider_url :=
              default "https://mainnet.infura.io/v3/YOUR_PROJECT_ID"
                (load_dotenv (environ w) !! "BLOCKCHAIN_PROVIDER_URL");
            Blockchain.contract_address :=
              load_dotenv (environ w) !! "TRADE_VERIFICATION_CONTRACT";
            Blockchain.contract_abi := abi |},
       World x' (load_dotenv (environ w)) (logs w ++ records)
             (requests w ++ [ReqReadAbiFile]) (stdout w))
    /\ ((read_abi_file (ext w) = (Returns abi, x') /\ records = [])
        \/ (exists e, read_abi_file (ext w) = (Raises e, x') /\ abi = VList []
                      /\ records = [LogRecord ERROR "ABI loading failed: " (ArgExn e)])).
Proof.
  set (w0 := World (ext w) (load_dotenv (environ w)) (logs w) (requests w) (stdout w)).
  destruct (load_contract_abi_run read_abi_file w0)
    as (abi & x' & records & Hrun & Hcases).
  exists abi, x', records. split; [|exact Hcases].
  unfold Blockchain.__init__.
  unfold bind at 1, run_load_dotenv. fold w0.
  unfold bind at 1, getenv at 1. unfold bind at 1, getenv at 1.
  unfold bind at 1. rewrite Hrun. reflexivity.
Qed.

(** X5.  Building a [BlockchainVerifier] never raises.  The environment is
    read after [load_dotenv]; the node URL falls back to the placeholder
    Infura address, the contract address has no fallback, and an ABI file
    that cannot be read leaves the verifier with an empty ABI and one
    ERROR record. *)
Theorem BlockchainVerifier_init_never_raises :
  forall {X} load_dotenv (read_abi_file : X -> outcome pyval * X) (w : world X),
    exists v w',
      Blockchain.__init__ load_dotenv read_abi_file w = (Returns v, w')
      /\ Blockchain.provider_url v
         = default "https://mainnet.infura.io/v3/YOUR_PROJECT_ID"
             (load_dotenv (environ w) !! "BLOCKCHAIN_PROVIDER_URL")
      /\ Blockchain.contract_address v
         = load_dotenv (environ w) !! "TRADE_VERIFICATION_CONTRACT"
      /\ environ w' = load_dotenv (environ w)
      /\ requests w' = requests w ++ [ReqReadAbiFile]
      /\ (forall abi x', read_abi_file (ext w) = (Returns abi, x') ->
            Blockchain.contract_abi v = abi /\ logs w' = logs w)
      /\ (forall e x', read_abi_file (ext w) = (Raises e, x') ->
            Blockchain.contract_abi v = VList []
            /\ logs w' = logs w ++ [LogRecord ERROR "ABI loading failed: " (ArgExn e)]).
Proof.
  intros X load_dotenv read_abi_file w.
  destruct (blockchain_init_run load_dotenv read_abi_file w)
    as (abi & x' & records & Hrun & Hcases).
  do 2 eexists. split; [exact Hrun|]. simpl.
  do 4 (split; [reflexivity|]). split.
  - intros abi' y Hread.
    destruct Hcases as [[Hok ->] | (e & Hbad & _)]; rewrite Hread in *.
    + injection Hok as <- _. split; [reflexivity|apply app_nil_r].
    + discriminate Hbad.
  - intros e y Hread.
    destruct Hcases as [[Hok _] | (e' & Hbad & -> & ->)]; rewrite Hread in *.
    + discriminate Hok.
    + injection Hbad as <- _. split; reflexivity.
Qed.

(** X6.  The script entry point of the ledger module never records the
    sample trade: after the verifier is built, the payload asks for
    [time.time()], the module has not imported [time], and [main] raises
    [NameError] without having sent any transaction. *)
Theorem blockchain_main_raises_name_error :
  forall {X} load_dotenv (read_abi_file : X -> outcome pyval * X) (w : world X),
    fst (Blockchain.main load_dotenv read_abi_file w) = Raises (NameError "time")
    /\ requests (snd (Blockchain.main load_dotenv read_abi_file w))
       = requests w ++ [ReqReadAbiFile]
    /\ count is_send (requests (snd (Blockchain.main load_dotenv read_abi_file w)))
       = count is_send (requests w).
Proof.
  intros X load_dotenv read_abi_file w.
  destruct (blockchain_init_run load_dotenv read_abi_file w)
    as (abi & x' & records & Hrun & _).
  unfold Blockchain.main.
  rewrite (bind_returns _ _ _ _ _ Hrun). unfold raise. simpl.
  split; [reflexivity|]. split; [reflexivity|].
  rewrite count_app. unfold count at 2. simpl. lia.
Qed.

(** ** More on the configuration *)

Section LoadingFacts.
Context {X : Type}.
Variable float_of_str : string -> option R.
Variable int_of_str : string -> option Z.

Lemma getenv_float_run (name : string) (dflt : R) (p : AppConfig.proc X) :
  AppConfig.getenv_float float_of_str name dflt p
  = (match float_setting float_of_str (environ (AppConfig.os p) !! name) dflt with
     | Some v => Returns v
     | None => Raises (ValueError "could not convert string to float")
     end, p).
Proof.
  unfold AppConfig.getenv_float.
  rewrite (bind_returns _ _ _ _ _ (in_os_getenv name p)).
  destruct (environ (AppConfig.os p) !! name) as [s|]; [|reflexivity].
  simpl. destruct (float_of_str s); reflexivity.
Qed.

Lemma getenv_int_run (name : string) (dflt : Z) (p : AppConfig.proc X) :
  AppConfig.getenv_int int_of_str name dflt p
  = (match int_setting int_of_str (environ (AppConfig.os p) !! name) dflt with
     | Some v => Returns v
     | None => Raises (ValueError "invalid literal for int()")
     end, p).
Proof.
  unfold AppConfig.getenv_int.
  rewrite (bind_returns _ _ _ _ _ (in_os_getenv name p)).
  destruct (environ (AppConfig.os p) !! name) as [s|]; [|reflexivity].
  simpl. destruct (int_of_str s); reflexivity.
Qed.

(** [_load_config] as a function of the environment: the four numeric
    settings are converted in the order of the dict literal, the first
    one that does not convert raises, and the state is never changed. *)
Lemma _load_config_run (p : AppConfig.proc X) :
  AppConfig._load_config float_of_str int_of_str p
  = (let env := environ (AppConfig.os p) in
     match float_setting float_of_str (env !! "MAX_TRADE_AMOUNT") 100 with
     | None => Raises (ValueError "could not convert string to float")
     | Some a =>
       match int_setting int_of_str (env !! "MODEL_TRAIN_FREQ") 7 with
       | None => Raises (ValueError "invalid literal for int()")
       | Some b =>
         match int_setting int_of_str (env !! "MAX_CONSECUTIVE_TRADES") 5 with
         | None => Raises (ValueError "invalid literal for int()")
         | Some c =>
           match float_setting float_of_str (env !! "RISK_THRESHOLD") 0.5 with
           | None => Raises (ValueError "could not convert string to float")
           | Some d => Returns (config_dict env a b c d)
           end
         end
       end
     end, p).
Proof.
  unfold AppConfig._load_config. cbv zeta.
  rewrite !(bind_returns _ _ _ _ _ (getenv_str_run _ _ p)).
  unfold bind at 1. rewrite getenv_float_run.
  destruct (float_setting float_of_str _ 100) as [a|]; [|reflexivity].
  rewrite !(bind_returns _ _ _ _ _ (getenv_val_run _ p)).
  unfold bind at 1. rewrite getenv_int_run.
  destruct (int_setting int_of_str _ 7) as [b|]; [|reflexivity].
  rewrite !(bind_returns _ _ _ _ _ (getenv_str_run _ _ p)).
  unfold bind at 1. rewrite getenv_int_run.
  destruct (int_setting int_of_str _ 5) as [c|]; [|reflexivity].
  unfold bind at 1. rewrite getenv_float_run.
  destruct (float_setting float_of_str _ 0.5) as [d|]; reflexivity.
Qed.

(** A loaded configuration is the dict literal over the environment. *)
Lemma _load_config_dict (p p' : AppConfig.proc X) cfg :
  AppConfig._load_config float_of_str int_of_str p = (Returns cfg, p') ->
  p' = p
  /\ exists a b c d,
       float_setting float_of_str
         (environ (AppConfig.os p) !! "MAX_TRADE_AMOUNT") 100 = Some a
       /\ int_setting int_of_str
            (environ (AppConfig.os p) !! "MODEL_TRAIN_FREQ") 7 = Some b
       /\ int_setting int_of_str
            (environ (AppConfig.os p) !! "MAX_CONSECUTIVE_TRADES") 5 = Some c
       /\ float_setting float_of_str
            (environ (AppConfig.os p) !! "RISK_THRESHOLD") 0.5 = Some d
       /\ cfg = config_dict (environ (AppConfig.os p)) a b c d.
Proof.
  rewrite _load_config_run. cbv zeta.
  destruct (float_setting float_of_str _ 100) as [a|]; [|discriminate].
  destruct (int_setting int_of_str _ 7) as [b|]; [|discriminate].
  destruct (int_setting int_of_str _ 5) as [c|]; [|discriminate].
  destruct (float_setting float_of_str _ 0.5) as [d|]; [|discriminate].
  intros H. injection H as <- <-. split; [reflexivity|].
  exists a, b, c, d. auto.
Qed.

End LoadingFacts.

Lemma float_setting_parses (conv : string -> option R) v dflt :
  is_Some (float_setting conv v dflt) <-> parses conv v.
Proof.
  destruct v as [s|]; simpl; [apply fmap_is_Some|].
  split; [auto|]. intros _; eexists; reflexivity.
Qed.

Lemma int_setting_parses (conv : string -> option Z) v dflt :
  is_Some (int_setting conv v dflt) <-> parses conv v.
Proof.
  destruct v as [s|]; simpl; [apply fmap_is_Some|].
  split; [auto|]. intros _; eexists; reflexivity.
Qed.

(** The case of [_load_config] in which one numeric setting was rejected. *)
Ltac rejected_setting :=
  simpl; split; [reflexivity|]; split;
  [ split;
    [ intros [cfg Hcfg]; discriminate Hcfg
    | intros (H1 & H2 & H3 & H4);
      first [ destruct H1 as [? H1]; discriminate H1
            | destruct H2 as [? H2]; discriminate H2
            | destruct H3 as [? H3]; discriminate H3
            | destruct H4 as [? H4]; discriminate H4 ] ]
  | intros e He; injection He as <-; eauto ].

(** X7.  Loading the configuration can fail in one way only: it raises
    [ValueError] exactly when one of the four numeric settings
    (MAX_TRADE_AMOUNT, MODEL_TRAIN_FREQ, MAX_CONSECUTIVE_TRADES,
    RISK_THRESHOLD) is set to text that [float] or [int] rejects.  Missing
    credentials never make it fail, and it changes nothing. *)
Theorem load_config_fails_only_on_numbers :
  forall {X} float_of_str int_of_str (p : AppConfig.proc X),
    snd (AppConfig._load_config float_of_str int_of_str p) = p
    /\ ((exists cfg,
           fst (AppConfig._load_config float_of_str int_of_str p) = Returns cfg)
        <-> parses float_of_str (environ (AppConfig.os p) !! "MAX_TRADE_AMOUNT")
            /\ parses int_of_str (environ (AppConfig.os p) !! "MODEL_TRAIN_FREQ")
            /\ parses int_of_str (environ (AppConfig.os p) !! "MAX_CONSECUTIVE_TRADES")
            /\ parses float_of_str (environ (AppConfig.os p) !! "RISK_THRESHOLD"))
    /\ (forall e,
          fst (AppConfig._load_config float_of_str int_of_str p) = Raises e ->
          exists what, e = ValueError what).
Proof.
  intros X float_of_str int_of_str p.
  rewrite _load_config_run. cbv zeta.
  rewrite <- (float_setting_parses float_of_str _ 100).
  rewrite <- (int_setting_parses int_of_str _ 7).
  rewrite <- (int_setting_parses int_of_str _ 5).
  rewrite <- (float_setting_parses float_of_str _ 0.5).
  destruct (float_setting float_of_str _ 100) as [a|]; [|rejected_setting].
  destruct (int_setting int_of_str _ 7) as [b|]; [|rejected_setting].
  destruct (int_setting int_of_str _ 5) as [c|]; [|rejected_setting].
  destruct (float_setting float_of_str _ 0.5) as [d|]; [|rejected_setting].
  simpl. split; [reflexivity|]. split; [|intros e He; discriminate He].
  split; [intros _; repeat split; eexists; reflexivity|].
  intros _. eexists. reflexivity.
Qed.

Lemma config_dict_keys (env : gmap string string) (a b c d : pyval) (k : string) :
  is_Some (config_dict env a b c d !! k) <-> In k config_keys.
Proof.
  rewrite <- elem_of_dom, <- list_elem_of_In.
  unfold config_dict, config_keys.
  rewrite !dom_insert_L, dom_empty_L.
  rewrite !elem_of_union, !elem_of_singleton, !elem_of_cons, elem_of_nil, elem_of_empty.
  tauto.
Qed.

(** X8.  A loaded configuration has exactly the twelve keys of the dict
    literal.  Five of them are named differently from the environment
    variable they come from, so asking for the variable's name finds
    nothing. *)
Theorem load_config_has_twelve_keys :
  forall {X} float_of_str int_of_str (p p' : AppConfig.proc X) cfg,
    AppConfig._load_config float_of_str int_of_str p = (Returns cfg, p') ->
    (forall k, is_Some (cfg !! k) <-> In k config_keys)
    /\ cfg !! "APP_ENV" = None
    /\ cfg !! "DEBUG" = None
    /\ cfg !! "BLOCKCHAIN_PROVIDER_URL" = None
    /\ cfg !! "TRADE_VERIFICATION_CONTRACT" = None
    /\ cfg !! "MODEL_TRAIN_FREQ" = None.
Proof.
  intros X float_of_str int_of_str p p' cfg Hload.
  apply _load_config_dict in Hload.
  destruct Hload as (_ & a & b & c & d & _ & _ & _ & _ & ->).
  split; [intros k; apply config_dict_keys|].
  repeat split; reflexivity.
Qed.

Lemma load_config_has_twelve_keys_witness :
  is_Some (Examples.config_of Examples.partial_env !! "BLOCKCHAIN_PROVIDER")
  /\ Examples.config_of Examples.partial_env !! "BLOCKCHAIN_PROVIDER_URL" = None.
Proof.
  destruct (@load_config_has_twelve_keys unit Examples.no_float Examples.no_int
              (Examples.proc0 Examples.partial_env)
              (Examples.proc0 Examples.partial_env)
              (Examples.config_of Examples.partial_env) eq_refl)
    as (Hkeys & _ & _ & Hurl & _).
  split; [|exact Hurl].
  apply Hkeys. simpl. tauto.
Defined.

(** *** Symbol lists *)

Lemma split_comma_nonempty (s : string) : AppConfig.split_comma s <> [].
Proof.
  destruct s as [|c s]; simpl; [discriminate|].
  destruct (Ascii.eqb c ","); [discriminate|].
  destruct (AppConfig.split_comma s); discriminate.
Qed.

(** Joining the pieces with commas gives the text back. *)
Lemma join_split_comma (s : string) :
  join_comma (AppConfig.split_comma s) = s.
Proof.
  induction s as [|c s IH]; [reflexivity|].
  cbn [AppConfig.split_comma].
  destruct (Ascii.eqb_spec c ",") as [->|Hc].
  - pose proof (split_comma_nonempty s) as Hne.
    destruct (AppConfig.split_comma s) as [|h t] eqn:Es; [contradiction|].
    change (join_comma (EmptyString :: h :: t))
      with (String.append EmptyString (String "," (join_comma (h :: t)))).
    rewrite IH. reflexivity.
  - pose proof (split_comma_nonempty s) as Hne.
    destruct (AppConfig.split_comma s) as [|h t] eqn:Es; [contradiction|].
    destruct t as [|h' t'].
    + simpl in IH. subst h. reflexivity.
    + cbn [join_comma] in *. rewrite <- IH. reflexivity.
Qed.

(** One piece more than there are commas. *)
Lemma split_comma_length (s : string) :
  length (AppConfig.split_comma s) = S (commas s).
Proof.
  induction s as [|c s IH]; [reflexivity|].
  cbn [AppConfig.split_comma commas].
  destruct (Ascii.eqb c ",").
  - simpl. rewrite IH. reflexivity.
  - pose proof (split_comma_nonempty s) as Hne.
    destruct (AppConfig.split_comma s) as [|h t]; [contradiction|].
    simpl in *. exact IH.
Qed.

(** No piece contains a comma. *)
Lemma split_comma_pieces (s : string) :
  Forall (fun piece => commas piece = 0%nat) (AppConfig.split_comma s).
Proof.
  induction s as [|c s IH]; [repeat constructor|].
  cbn [AppConfig.split_comma].
  destruct (Ascii.eqb c ",") eqn:Ec.
  - constructor; [reflexivity|exact IH].
  - pose proof (split_comma_nonempty s) as Hne.
    destruct (AppConfig.split_comma s) as [|h t]; [contradiction|].
    inversion IH as [|? ? Hh Ht]; subst.
    constructor; [|exact Ht].
    cbn [commas]. rewrite Ec, Hh. reflexivity.
Qed.

(** X9.  The symbol lists of a loaded configuration are the
    comma-separated pieces of TRADING_SYMBOLS and SENTIMENT_SYMBOLS (or of
    their defaults): joining the pieces with commas gives the variable
    back, no piece contains a comma, and there is one piece more than
    there are commas.  In particular the list is never empty: an empty
    variable yields one empty symbol. *)
Theorem load_config_symbol_lists :
  forall {X} float_of_str int_of_str (p p' : AppConfig.proc X) cfg,
    AppConfig._load_config float_of_str int_of_str p = (Returns cfg, p') ->
    symbol_list cfg "TRADING_SYMBOLS"
      (default "BTC/USDT,ETH/USDT" (environ (AppConfig.os p) !! "TRADING_SYMBOLS"))
    /\ symbol_list cfg "SENTIMENT_SYMBOLS"
         (default "BTC,ETH" (environ (AppConfig.os p) !! "SENTIMENT_SYMBOLS")).
Proof.
  intros X float_of_str int_of_str p p' cfg Hload.
  apply _load_config_dict in Hload.
  destruct Hload as (_ & a & b & c & d & _ & _ & _ & _ & ->).
  split; (eexists; split; [reflexivity|]);
    (split; [apply join_split_comma|]);
    (split; [apply split_comma_length|apply split_comma_pieces]).
Qed.

Lemma load_config_symbol_lists_witness :
  symbol_list (Examples.config_of Examples.partial_env) "TRADING_SYMBOLS"
    "BTC/USDT,ETH/USDT".
Proof.
  exact (proj1 (@load_config_symbol_lists unit Examples.no_float Examples.no_int
                  (Examples.proc0 Examples.partial_env)
                  (Examples.proc0 Examples.partial_env)
                  (Examples.config_of Examples.partial_env) eq_refl)).
Defined.

(** *** Reading and validating *)

(** The first element that satisfies a test, and what comes before it. *)
Lemma find_first {A} (f : A -> bool) (l : list A) (x : A) :
  find f l = Some x ->
  exists before after,
    l = before ++ x :: after /\ f x = true /\ Forall (fun y => f y = false) before.
Proof.
  induction l as [|y l IH]; [discriminate|].
  simpl. destruct (f y) eqn:Ey.
  - intros H; injection H as <-. exists [], l. auto.
  - intros H. destruct (IH H) as (before & after & -> & Hx & Hb).
    exists (y :: before), after. repeat split; auto.
Qed.

(** The loop of [validate_config] stops at the first falsy key and logs
    that key only. *)
Lemma validate_keys_log {X} (self : nat) (ks : list string) (p : AppConfig.proc X) o d :
  AppConfig.heap p !! self = Some o ->
  AppConfig.config o = Some d ->
  AppConfig.validate_keys self ks p
  = match first_missing d ks with
    | None => (Returns true, p)
    | Some k =>
        (Returns false,
         AppConfig.Proc
           (with_log (AppConfig.os p)
              (LogRecord ERROR "Missing critical configuration: " (ArgStr k)))
           (AppConfig._instance p) (AppConfig.heap p) (AppConfig.console_handlers p))
    end.
Proof.
  intros Hself Hcfg. induction ks as [|key rest IH]; [reflexivity|].
  cbn [AppConfig.validate_keys].
  rewrite (bind_returns _ _ _ _ _ (get_config_run self key VNone p o d Hself Hcfg)).
  unfold first_missing in *. cbn [find].
  destruct (negb (truthy (default VNone (d !! key)))); [reflexivity|exact IH].
Qed.

(** X10.  [validate_config] reports one key at most: the first of
    BYBIT_API_KEY, BYBIT_API_SECRET, BLOCKCHAIN_PROVIDER whose value is
    falsy.  Keys after it are not looked at, so two missing settings take
    two runs to find.  A valid configuration is accepted without a trace. *)
Theorem validate_config_reports_first_missing_key :
  forall {X} (self : nat) (p : AppConfig.proc X) o d,
    AppConfig.heap p !! self = Some o ->
    AppConfig.config o = Some d ->
    (Forall (fun k => truthy (default VNone (d !! k)) = true) AppConfig.critical_keys
     /\ AppConfig.validate_config self p = (Returns true, p))
    \/ (exists before k after,
          AppConfig.critical_keys = before ++ k :: after
          /\ Forall (fun k' => truthy (default VNone (d !! k')) = true) before
          /\ truthy (default VNone (d !! k)) = false
          /\ AppConfig.validate_config self p
             = (Returns false,
                AppConfig.Proc
                  (with_log (AppConfig.os p)
                     (LogRecord ERROR "Missing critical configuration: " (ArgStr k)))
                  (AppConfig._instance p) (AppConfig.heap p)
                  (AppConfig.console_handlers p))).
Proof.
  intros X self p o d Hself Hcfg.
  unfold AppConfig.validate_config.
  rewrite (validate_keys_log self AppConfig.critical_keys p o d Hself Hcfg).
  destruct (first_missing d AppConfig.critical_keys) as [k|] eqn:Efirst.
  - right. apply find_first in Efirst.
    destruct Efirst as (before & after & Hsplit & Hk & Hbefore).
    exists before, k, after. split; [exact Hsplit|]. split; [|split].
    + eapply Forall_impl; [exact Hbefore|].
      intros k' Hk'. simpl in Hk'. apply negb_false_iff in Hk'. exact Hk'.
    + apply negb_true_iff in Hk. exact Hk.
    + reflexivity.
  - left. split; [|reflexivity].
    apply Forall_forall. intros k Hk. apply list_elem_of_In in Hk.
    pose proof (find_none _ _ Efirst k Hk) as Hno.
    simpl in Hno. apply negb_false_iff in Hno. exact Hno.
Qed.

Lemma validate_config_reports_first_missing_key_witness :
  exists p',
    AppConfig.validate_config 0
      (Examples.configured (Examples.config_of ∅)) = (Returns false, p').
Proof.
  destruct (@validate_config_reports_first_missing_key unit 0%nat
              (Examples.configured (Examples.config_of ∅))
              (AppConfig.Obj (Some (Examples.config_of ∅)) (Some true))
              (Examples.config_of ∅) eq_refl eq_refl)
    as [[Hall _] | (before & k & after & _ & _ & _ & Hrun)].
  - exfalso. inversion Hall as [|? ? Hkey _]. vm_compute in Hkey. discriminate Hkey.
  - eexists. exact Hrun.
Defined.

(** X11.  [__new__] allocates at most once: the first call creates an
    object without attributes and registers it, every later call hands
    back the registered object and changes nothing. *)
Theorem new_allocates_once :
  forall {X} (p : AppConfig.proc X),
    exists self p1,
      AppConfig.__new__ p = (Returns self, p1)
      /\ AppConfig._instance p1 = Some self
      /\ AppConfig.__new__ p1 = (Returns self, p1)
      /\ AppConfig.os p1 = AppConfig.os p
      /\ match AppConfig._instance p with
         | Some registered => self = registered /\ p1 = p
         | None =>
             self = length (AppConfig.heap p)
             /\ AppConfig.heap p1 = AppConfig.heap p ++ [AppConfig.Obj None None]
         end.
Proof.
  intros X [w i h c]. unfold AppConfig.__new__. simpl.
  destruct i as [registered|].
  - exists registered. eexists. split; [reflexivity|]. simpl. auto.
  - exists (length h). eexists. split; [reflexivity|]. simpl. auto.
Qed.

(** X12.  Once an initialised object is registered, the call [AppConfig()]
    returns that object and changes nothing: the environment is not
    reloaded, logging is not set up again, the stored configuration stays. *)
Theorem AppConfig_returns_initialised_instance :
  forall {X} load_dotenv basicConfig float_of_str int_of_str
         (p : AppConfig.proc X) self o flag,
    AppConfig._instance p = Some self ->
    AppConfig.heap p !! self = Some o ->
    AppConfig.initialized o = Some flag ->
    AppConfig.AppConfig load_dotenv basicConfig float_of_str int_of_str p
    = (Returns self, p).
Proof.
  intros X load_dotenv basicConfig float_of_str int_of_str p self o flag
    Hreg Hself Hinit.
  unfold AppConfig.AppConfig.
  assert (Hnew : AppConfig.__new__ p = (Returns self, p))
    by (unfold AppConfig.__new__; rewrite Hreg; reflexivity).
  rewrite (bind_returns _ _ _ _ _ Hnew).
  assert (Hini : AppConfig.__init__ load_dotenv basicConfig float_of_str
                   int_of_str self p = (Returns tt, p)).
  { unfold AppConfig.__init__, AppConfig.read_attrs. unfold bind at 1.
    rewrite Hself, Hinit. reflexivity. }
  rewrite (bind_returns _ _ _ _ _ Hini). reflexivity.
Qed.

Lemma AppConfig_returns_initialised_instance_witness :
  AppConfig.AppConfig Examples.no_dotenv Examples.basicConfig_ok
    Examples.no_float Examples.no_int
    (Examples.configured (Examples.config_of Examples.partial_env))
  = (Returns 0%nat, Examples.configured (Examples.config_of Examples.partial_env)).
Proof.
  exact (@AppConfig_returns_initialised_instance unit Examples.no_dotenv
           Examples.basicConfig_ok Examples.no_float Examples.no_int
           (Examples.configured (Examples.config_of Examples.partial_env))
           0%nat
           (AppConfig.Obj (Some (Examples.config_of Examples.partial_env)) (Some true))
           true eq_refl eq_refl eq_refl).
Defined.

(** X13.  On a loaded configuration the default of [get_config] is used
    for unknown keys only.  For each of the twelve keys the stored value
    is returned whatever default is passed; in particular an unset
    credential is stored as [None], so asking for it with a default still
    gives [None]. *)
Theorem get_config_default_for_unknown_keys_only :
  forall {X} float_of_str int_of_str (p0 p1 p : AppConfig.proc X) cfg self o,
    AppConfig._load_config float_of_str int_of_str p0 = (Returns cfg, p1) ->
    AppConfig.heap p !! self = Some o ->
    AppConfig.config o = Some cfg ->
    forall key dflt,
      (In key config_keys ->
         exists v, cfg !! key = Some v
                   /\ AppConfig.get_config self key dflt p = (Returns v, p))
      /\ (~ In key config_keys ->
            AppConfig.get_config self key dflt p = (Returns dflt, p))
      /\ (In key ["BYBIT_API_KEY"; "BYBIT_API_SECRET"] ->
          environ (AppConfig.os p0) !! key = None ->
          AppConfig.get_config self key dflt p = (Returns VNone, p)).
Proof.
  intros X float_of_str int_of_str p0 p1 p cfg self o Hload Hself Hcfg key dflt.
  rewrite (get_config_run self key dflt p o cfg Hself Hcfg).
  apply _load_config_dict in Hload.
  destruct Hload as (_ & a & b & c & d & _ & _ & _ & _ & ->).
  split; [|split].
  - intros Hin.
    apply (config_dict_keys (environ (AppConfig.os p0)) a b c d) in Hin.
    destruct Hin as [v Hv].
    exists v. rewrite Hv. auto.
  - intros Hout.
    destruct (config_dict (environ (AppConfig.os p0)) a b c d !! key) as [v|] eqn:Ev;
      [|reflexivity].
    exfalso. apply Hout.
    apply (config_dict_keys (environ (AppConfig.os p0)) a b c d). eauto.
  - intros Hin Hunset. simpl in Hin.
    destruct Hin as [<-|[<-|[]]];
      match goal with
      | |- context [config_dict ?env a b c d !! ?k] =>
          change (config_dict env a b c d !! k) with (Some (loaded (env !! k)))
      end; rewrite Hunset; reflexivity.
Qed.

Lemma get_config_default_for_unknown_keys_only_witness :
  AppConfig.get_config 0 "BLOCKCHAIN_PROVIDER_URL" (VStr "fallback")
    (Examples.configured (Examples.config_of Examples.partial_env))
  = (Returns (VStr "fallback"),
     Examples.configured (Examples.config_of Examples.partial_env)).
Proof.
  apply (@get_config_default_for_unknown_keys_only unit Examples.no_float
           Examples.no_int (Examples.proc0 Examples.partial_env)
           (Examples.proc0 Examples.partial_env)
           (Examples.configured (Examples.config_of Examples.partial_env))
           (Examples.config_of Examples.partial_env) 0%nat
           (AppConfig.Obj (Some (Examples.config_of Examples.partial_env)) (Some true))
           eq_refl eq_refl eq_refl "BLOCKCHAIN_PROVIDER_URL" (VStr "fallback")).
  simpl. intros H. repeat (destruct H as [H|H]; [discriminate H|]). exact H.
Defined.

(** X14.  [is_production] answers [True] exactly when APP_ENV is set to
    the text [production], letter for letter; unset, it is the default
    [development] and the answer is [False]. *)
Theorem is_production_iff_app_env :
  forall {X} float_of_str int_of_str (p0 p1 p : AppConfig.proc X) cfg self o,
    AppConfig._load_config float_of_str int_of_str p0 = (Returns cfg, p1) ->
    AppConfig.heap p !! self = Some o ->
    AppConfig.config o = Some cfg ->
    exists b,
      AppConfig.is_production self p = (Returns b, p)
      /\ (b = true <-> environ (AppConfig.os p0) !! "APP_ENV" = Some "production").
Proof.
  intros X float_of_str int_of_str p0 p1 p cfg self o Hload Hself Hcfg.
  unfold AppConfig.is_production.
  rewrite (bind_returns _ _ _ _ _
             (get_config_run self "ENVIRONMENT" VNone p o cfg Hself Hcfg)).
  apply _load_config_dict in Hload.
  destruct Hload as (_ & a & b & c & d & _ & _ & _ & _ & ->).
  eexists. split; [reflexivity|].
  change (config_dict (environ (AppConfig.os p0)) a b c d !! "ENVIRONMENT")
    with (Some (VStr (default "development"
                        (environ (AppConfig.os p0) !! "APP_ENV")))).
  cbn [from_option]. unfold Datatypes.id. cbn [eq_str].
  destruct (environ (AppConfig.os p0) !! "APP_ENV") as [s|]; cbn [from_option].
  - unfold Datatypes.id. destruct (String.eqb_spec s "production") as [->|Hne].
    + split; auto.
    + split; [discriminate|]. intros H; injection H as ->. contradiction.
  - split; discriminate.
Qed.

Lemma is_production_iff_app_env_witness :
  AppConfig.is_production 0
    (Examples.configured (Examples.config_of MoreExamples.production_env))
  = (Returns true,
     Examples.configured (Examples.config_of MoreExamples.production_env)).
Proof.
  destruct (@is_production_iff_app_env unit Examples.no_float Examples.no_int
              (Examples.proc0 MoreExamples.production_env)
              (Examples.proc0 MoreExamples.production_env)
              (Examples.configured (Examples.config_of MoreExamples.production_env))
              (Examples.config_of MoreExamples.production_env) 0%nat
              (AppConfig.Obj
                 (Some (Examples.config_of MoreExamples.production_env)) (Some true))
              eq_refl eq_refl eq_refl)
    as (b & Hrun & Hiff).
  rewrite Hrun. f_equal. f_equal. apply Hiff. reflexivity.
Defined.

(** X15.  On a configured object the start-up routine [main] never
    raises and sends nothing.  A valid configuration is answered with two
    lines, the second showing the stored trading symbols; an invalid one
    with the single complaint. *)
Theorem config_main_prints_one_or_two_lines :
  forall {X} (self : nat) (p : AppConfig.proc X) o d,
    AppConfig.heap p !! self = Some o ->
    AppConfig.config o = Some d ->
    exists q,
      AppConfig.main self p = (Returns tt, q)
      /\ AppConfig.heap q = AppConfig.heap p
      /\ requests (AppConfig.os q) = requests (AppConfig.os p)
      /\ stdout (AppConfig.os q)
         = stdout (AppConfig.os p)
           ++ match first_missing d AppConfig.critical_keys with
              | None => [("Configuration is valid!", None);
                         ("Trading Symbols: ", Some (default VNone (d !! "TRADING_SYMBOLS")))]
              | Some _ => [("Invalid configuration. Please check your .env file.", None)]
              end.
Proof.
  intros X self p o d Hself Hcfg.
  unfold AppConfig.main, AppConfig.validate_config.
  unfold bind at 1.
  rewrite (validate_keys_log self AppConfig.critical_keys p o d Hself Hcfg).
  destruct (first_missing d AppConfig.critical_keys) as [k|].
  - eexists. split; [reflexivity|]. simpl. auto.
  - unfold bind at 1. unfold AppConfig.in_os at 1, print at 1.
    set (p1 := AppConfig.Proc _ _ _ _).
    assert (Hself1 : AppConfig.heap p1 !! self = Some o) by exact Hself.
    rewrite (bind_returns _ _ _ _ _
               (get_config_run self "TRADING_SYMBOLS" VNone p1 o d Hself1 Hcfg)).
    eexists. split; [reflexivity|]. simpl.
    rewrite <- app_assoc. auto.
Qed.

Lemma config_main_prints_one_or_two_lines_witness :
  exists q,
    AppConfig.main 0
      (Examples.configured (Examples.config_of MoreExamples.production_env))
    = (Returns tt, q)
    /\ stdout (AppConfig.os q)
       = [("Configuration is valid!", None);
          ("Trading Symbols: ", Some (VList [VStr "BTC/USDT"; VStr "ETH/USDT"]))].
Proof.
  destruct (@config_main_prints_one_or_two_lines unit 0%nat
              (Examples.configured (Examples.config_of MoreExamples.production_env))
              (AppConfig.Obj
                 (Some (Examples.config_of MoreExamples.production_env)) (Some true))
              (Examples.config_of MoreExamples.production_env) eq_refl eq_refl)
    as (q & Hrun & _ & _ & Hout).
  exists q. split; [exact Hrun|]. rewrite Hout. reflexivity.
Defined.

(** X16.  On an object whose configuration was never stored, every reader
    raises [AttributeError] and leaves the state as it was:
    [validate_config] does not answer [False] there, and [main] prints
    nothing. *)
Theorem readers_raise_on_unconfigured_object :
  forall {X} (self : nat) (p : AppConfig.proc X) o,
    AppConfig.heap p !! self = Some o ->
    AppConfig.config o = None ->
    (forall key dflt,
        AppConfig.get_config self key dflt p = (Raises (AttributeError "config"), p))
    /\ AppConfig.is_production self p = (Raises (AttributeError "config"), p)
    /\ AppConfig.validate_config self p = (Raises (AttributeError "config"), p)
    /\ AppConfig.main self p = (Raises (AttributeError "config"), p).
Proof.
  intros X self p o Hself Hcfg.
  assert (Hget : forall key dflt,
             AppConfig.get_config self key dflt p
             = (Raises (AttributeError "config"), p)).
  { intros key dflt. unfold AppConfig.get_config, AppConfig.read_attrs, bind.
    rewrite Hself, Hcfg. reflexivity. }
  assert (Hvalid : AppConfig.validate_config self p
                   = (Raises (AttributeError "config"), p)).
  { unfold AppConfig.validate_config, AppConfig.critical_keys.
    cbn [AppConfig.validate_keys].
    apply bind_raises, Hget. }
  split; [exact Hget|]. split; [|split; [exact Hvalid|]].
  - unfold AppConfig.is_production. apply bind_raises, Hget.
  - unfold AppConfig.main. apply bind_raises, Hvalid.
Qed.

Lemma readers_raise_on_unconfigured_object_witness :
  AppConfig.validate_config 0
    (after_failed_construction Examples.no_dotenv (Examples.proc0 ∅) 0
       [AppConfig.Obj None None])
  = (Raises (AttributeError "config"),
     after_failed_construction Examples.no_dotenv (Examples.proc0 ∅) 0
       [AppConfig.Obj None None]).
Proof.
  exact (proj1 (proj2 (proj2
           (@readers_raise_on_unconfigured_object unit 0%nat
              (after_failed_construction Examples.no_dotenv (Examples.proc0 ∅) 0
                 [AppConfig.Obj None None])
              (AppConfig.Obj None None) eq_refl eq_refl)))).
Defined.

(** ** More on the exchange connector *)

(** [get_account_balance] as a function of what the exchange answers. *)
Lemma get_account_balance_run {X} (exchange : Ccxt.bybit X) (w : world X) :
  Bybit.get_account_balance exchange w
  = match Ccxt.fetch_balance exchange (ext w) with
    | (Raises e, x') =>
        (Returns (VDict []),
         with_log (with_request w ReqFetchBalance x')
           (LogRecord ERROR "Balance retrieval failed: " (ArgExn e)))
    | (Returns balance, x') =>
        match usdt_of balance "total", usdt_of balance "free",
              usdt_of balance "used" with
        | Returns t, Returns f, Returns u =>
            (Returns (VDict [("total", t); ("free", f); ("used", u)]),
             with_request w ReqFetchBalance x')
        | Raises e, _, _
        | Returns _, Raises e, _
        | Returns _, Returns _, Raises e =>
            (Returns (VDict []),
             with_log (with_request w ReqFetchBalance x')
               (LogRecord ERROR "Balance retrieval failed: " (ArgExn e)))
        end
    end.
Proof.
  unfold Bybit.get_account_balance, try_except, bind at 1, call.
  destruct (Ccxt.fetch_balance exchange (ext w)) as [[balance|e] x'];
    [|reflexivity].
  unfold usdt_of, bind, lift.
  destruct (getitem balance "total") as [total|e]; [|reflexivity].
  destruct (getitem total "USDT") as [t|e]; [|reflexivity].
  destruct (getitem balance "free") as [free|e]; [|reflexivity].
  destruct (getitem free "USDT") as [f|e]; [|reflexivity].
  destruct (getitem balance "used") as [used|e]; [|reflexivity].
  destruct (getitem used "USDT") as [u|e]; reflexivity.
Qed.

(** X17.  [get_account_balance] never raises and sends one request.  Its
    answer is either the empty dict or a dict with exactly the keys
    [total], [free], [used]; it is the full dict exactly when the exchange
    answered and all three sections have a USDT entry, and a balance that
    lacks USDT in one section is answered with the empty dict and an
    ERROR record, like an exchange failure. *)
Theorem get_account_balance_shape :
  forall {X} (exchange : Ccxt.bybit X) (w : world X),
    exists v w',
      Bybit.get_account_balance exchange w = (Returns v, w')
      /\ requests w' = requests w ++ [ReqFetchBalance]
      /\ ((v = VDict [] /\ exists e,
             logs w' = logs w ++ [LogRecord ERROR "Balance retrieval failed: " (ArgExn e)])
          \/ (keys v = ["total"; "free"; "used"] /\ logs w' = logs w))
      /\ (keys v = ["total"; "free"; "used"] <->
          exists balance x' t f u,
            Ccxt.fetch_balance exchange (ext w) = (Returns balance, x')
            /\ usdt_of balance "total" = Returns t
            /\ usdt_of balance "free" = Returns f
            /\ usdt_of balance "used" = Returns u
            /\ v = VDict [("total", t); ("free", f); ("used", u)]).
Proof.
  intros X exchange w. rewrite get_account_balance_run.
  destruct (Ccxt.fetch_balance exchange (ext w)) as [[balance|e] x'].
  - destruct (usdt_of balance "total") as [t|e] eqn:Et;
      [destruct (usdt_of balance "free") as [f|e] eqn:Ef;
       [destruct (usdt_of balance "used") as [u|e] eqn:Eu|]|].
    + do 2 eexists. split; [reflexivity|]. split; [reflexivity|].
      split; [right; split; reflexivity|].
      split; [intros _|reflexivity].
      exists balance, x', t, f, u. auto.
    + do 2 eexists. split; [reflexivity|]. split; [reflexivity|].
      split; [left; split; [reflexivity|eexists; reflexivity]|].
      split; [discriminate|].
      intros (b & y & t' & f' & u' & Hb & _ & _ & Hu & _).
      injection Hb as <- _. congruence.
    + do 2 eexists. split; [reflexivity|]. split; [reflexivity|].
      split; [left; split; [reflexivity|eexists; reflexivity]|].
      split; [discriminate|].
      intros (b & y & t' & f' & u' & Hb & _ & Hf & _).
      injection Hb as <- _. congruence.
    + do 2 eexists. split; [reflexivity|]. split; [reflexivity|].
      split; [left; split; [reflexivity|eexists; reflexivity]|].
      split; [discriminate|].
      intros (b & y & t' & f' & u' & Hb & Ht & _).
      injection Hb as <- _. congruence.
  - do 2 eexists. split; [reflexivity|]. split; [reflexivity|].
    split; [left; split; [reflexivity|eexists; reflexivity]|].
    split; [discriminate|].
    intros (b & y & t' & f' & u' & Hb & _). discriminate Hb.
Qed.

(** X18.  When the exchange answers the ticker request, [get_current_price]
    hands back whatever is stored under [last], unchanged and unlogged; a
    ticker without [last] is answered with [0.0] and an ERROR record, just
    like a failed request. *)
Theorem get_current_price_reads_last :
  forall {X} (exchange : Ccxt.bybit X) symbol (w : world X) ticker x',
    Ccxt.fetch_ticker exchange symbol (ext w) = (Returns ticker, x') ->
    (forall price,
        getitem ticker "last" = Returns price ->
        Bybit.get_current_price exchange symbol w
        = (Returns price, with_request w (ReqFetchTicker symbol) x'))
    /\ (forall e,
          getitem ticker "last" = Raises e ->
          Bybit.get_current_price exchange symbol w
          = (Returns (VFloat 0),
             with_log (with_request w (ReqFetchTicker symbol) x')
               (LogRecord ERROR "Price retrieval failed: " (ArgExn e)))).
Proof.
  intros X exchange symbol w ticker x' Hfetch.
  unfold Bybit.get_current_price, try_except.
  rewrite (bind_returns _ _ _ _ _ (call_step _ _ _ _ _ Hfetch)).
  unfold lift.
  split; intros r Hlast; rewrite Hlast; reflexivity.
Qed.

Lemma get_current_price_reads_last_witness :
  Bybit.get_current_price MoreExamples.sparse_exchange "BTC/USDT"
    (Examples.world0 tt)
  = (Returns (VFloat 0),
     with_log (with_request (Examples.world0 tt) (ReqFetchTicker "BTC/USDT") tt)
       (LogRecord ERROR "Price retrieval failed: " (ArgExn (KeyError "last")))).
Proof.
  exact (proj2 (@get_current_price_reads_last unit MoreExamples.sparse_exchange
                  "BTC/USDT" (Examples.world0 tt)
                  (VDict [("bid", VFloat 1)]) tt eq_refl)
           (KeyError "last") eq_refl).
Defined.

(** Both readers of the connector return, having sent their one request
    and logged at most one record. *)
Lemma get_account_balance_returns {X} (exchange : Ccxt.bybit X) (w : world X) :
  exists v x' records,
    Bybit.get_account_balance exchange w
    = (Returns v, World x' (environ w) (logs w ++ records)
                    (requests w ++ [ReqFetchBalance]) (stdout w))
    /\ (length records <= 1)%nat.
Proof.
  rewrite get_account_balance_run.
  destruct (Ccxt.fetch_balance exchange (ext w)) as [[balance|e] x'].
  - destruct (usdt_of balance "total") as [t|e];
      [destruct (usdt_of balance "free") as [f|e];
       [destruct (usdt_of balance "used") as [u|e]|]|].
    + exists (VDict [("total", t); ("free", f); ("used", u)]), x', [].
      unfold with_request. rewrite app_nil_r. auto.
    + exists (VDict []), x', [LogRecord ERROR "Balance retrieval failed: " (ArgExn e)].
      auto.
    + exists (VDict []), x', [LogRecord ERROR "Balance retrieval failed: " (ArgExn e)].
      auto.
    + exists (VDict []), x', [LogRecord ERROR "Balance retrieval failed: " (ArgExn e)].
      auto.
  - exists (VDict []), x', [LogRecord ERROR "Balance retrieval failed: " (ArgExn e)].
    auto.
Qed.

Lemma get_current_price_returns {X} (exchange : Ccxt.bybit X) symbol (w : world X) :
  exists v x' records,
    Bybit.get_current_price exchange symbol w
    = (Returns v, World x' (environ w) (logs w ++ records)
                    (requests w ++ [ReqFetchTicker symbol]) (stdout w))
    /\ (length records <= 1)%nat.
Proof.
  unfold Bybit.get_current_price, try_except, bind, call, lift.
  destruct (Ccxt.fetch_ticker exchange symbol (ext w)) as [[ticker|e] x'].
  - destruct (getitem ticker "last") as [price|e].
    + exists price, x', []. unfold with_request. rewrite app_nil_r. auto.
    + exists (VFloat 0), x', [LogRecord ERROR "Price retrieval failed: " (ArgExn e)].
      auto.
  - exists (VFloat 0), x', [LogRecord ERROR "Price retrieval failed: " (ArgExn e)].
    auto.
Qed.

(** X19.  The script entry point of the connector cannot fail: whatever
    the exchange does, [main] returns after one balance request and one
    ticker request for BTC/USDT, has printed exactly two lines, and has
    logged at most two records. *)
Theorem bybit_main_prints_two_lines :
  forall {X} (exchange : Ccxt.bybit X) load_dotenv (w : world X),
    exists w' balance price records,
      Bybit.main exchange load_dotenv w = (Returns tt, w')
      /\ stdout w' = stdout w ++ [("Account Balance: ", Some balance);
                                  ("Current BTC Price: $", Some price)]
      /\ requests w' = requests w ++ [ReqFetchBalance; ReqFetchTicker "BTC/USDT"]
      /\ environ w' = load_dotenv (environ w)
      /\ logs w' = logs w ++ records /\ (length records <= 2)%nat.
Proof.
  intros X exchange load_dotenv w.
  set (w0 := World (ext w) (load_dotenv (environ w)) (logs w) (requests w) (stdout w)).
  destruct (get_account_balance_returns exchange w0)
    as (balance & x1 & r1 & Hbal & Hr1).
  set (w1 := World x1 (environ w0) (logs w0 ++ r1)
               (requests w0 ++ [ReqFetchBalance]) (stdout w0)) in *.
  set (w2 := World (ext w1) (environ w1) (logs w1) (requests w1)
               (stdout w1 ++ [("Account Balance: ", Some balance)])).
  destruct (get_current_price_returns exchange "BTC/USDT" w2)
    as (price & x2 & r2 & Hprice & Hr2).
  assert (Hinit : exists t, Bybit.__init__ load_dotenv None None w = (Returns t, w0))
    by (eexists; reflexivity).
  destruct Hinit as [t Hinit].
  unfold Bybit.main.
  rewrite (bind_returns _ _ _ _ _ Hinit).
  rewrite (bind_returns _ _ _ _ _ Hbal).
  unfold bind at 1, print at 1. fold w2.
  rewrite (bind_returns _ _ _ _ _ Hprice).
  exists (World x2 (environ w2) (logs w2 ++ r2)
            (requests w2 ++ [ReqFetchTicker "BTC/USDT"])
            (stdout w2 ++ [("Current BTC Price: $", Some price)])).
  exists balance, price, (r1 ++ r2).
  split; [reflexivity|]. simpl.
  rewrite <- !app_assoc, length_app.
  repeat split; try reflexivity. lia.
Qed.

(** X20.  [BybitTrader(api_key, api_secret)] takes each credential from
    its argument when that is a non-empty string and from the environment
    otherwise, the environment being read after [load_dotenv]; so an
    empty-string argument does not override the environment. *)
Theorem BybitTrader_init_credentials :
  forall {X} load_dotenv (key secret : option string) (w : world X),
    exists trader,
      Bybit.__init__ load_dotenv key secret w
      = (Returns trader,
         World (ext w) (load_dotenv (environ w)) (logs w) (requests w) (stdout w))
      /\ (forall s, key = Some s -> s <> EmptyString ->
                    Bybit.api_key trader = Some s)
      /\ (missing key ->
            Bybit.api_key trader = load_dotenv (environ w) !! "BYBIT_API_KEY")
      /\ (forall s, secret = Some s -> s <> EmptyString ->
                    Bybit.api_secret trader = Some s)
      /\ (missing secret ->
            Bybit.api_secret trader = load_dotenv (environ w) !! "BYBIT_API_SECRET").
Proof.
  intros X load_dotenv key secret w.
  eexists. split; [reflexivity|]. simpl.
  assert (Hor : forall (a b : option string),
             (forall s, a = Some s -> s <> EmptyString -> Bybit.str_or a b = Some s)
             /\ (missing a -> Bybit.str_or a b = b)).
  { intros a b. unfold Bybit.str_or, missing. split.
    - intros s -> Hs. destruct (String.eqb_spec s EmptyString); [contradiction|].
      reflexivity.
    - intros [->| ->]; reflexivity. }
  destruct (Hor key (load_dotenv (environ w) !! "BYBIT_API_KEY")) as [Hk1 Hk2].
  destruct (Hor secret (load_dotenv (environ w) !! "BYBIT_API_SECRET")) as [Hs1 Hs2].
  auto.
Qed.

(** ** More on the sentiment analyzer *)

(** [fetch_market_data] as a function of what the data source answers. *)
Lemma fetch_market_data_run {X} (pd : Frames.lib X) symbol period (w : world X) :
  Sentiment.fetch_market_data pd symbol period w
  = match Frames.history pd symbol period (ext w) with
    | (Returns d, x') =>
        match Frames.add_pct_changes pd d with
        | Returns data => (Returns data, with_request w (ReqHistory symbol period) x')
        | Raises e =>
            (Returns (Frames.empty_frame pd),
             with_log (with_request w (ReqHistory symbol period) x')
               (LogRecord ERROR "Data fetching failed: " (ArgExn e)))
        end
    | (Raises e, x') =>
        (Returns (Frames.empty_frame pd),
         with_log (with_request w (ReqHistory symbol period) x')
           (LogRecord ERROR "Data fetching failed: " (ArgExn e)))
    end.
Proof.
  unfold Sentiment.fetch_market_data, try_except, bind, call, lift.
  destruct (Frames.history pd symbol period (ext w)) as [[d|e] x']; [|reflexivity].
  destruct (Frames.add_pct_changes pd d); reflexivity.
Qed.

(** After the fetch, [analyze_sentiment] works on values only: the world
    it leaves is the one the fetch left. *)
Lemma analyze_sentiment_world {X} (pd : Frames.lib X) self symbol (w : world X) :
  snd (Sentiment.analyze_sentiment pd self symbol w)
  = snd (Sentiment.fetch_market_data pd symbol "1mo" w).
Proof.
  destruct (fetch_market_data_returns pd symbol "1mo" w) as (data & w1 & Hfetch).
  unfold Sentiment.analyze_sentiment.
  rewrite (bind_returns _ _ _ _ _ Hfetch), Hfetch. simpl.
  destruct (Frames.is_empty pd data); [reflexivity|].
  unfold bind, lift, ret.
  destruct (Frames.last_features pd data); [|reflexivity].
  destruct (Sentiment.transform _ _); [|reflexivity].
  destruct (Sentiment.predict _ _); [|reflexivity].
  destruct (Sentiment.first_cell _); reflexivity.
Qed.

(** X21.  A fresh analyzer cannot score available data: straight after
    [__init__] the scaler is unfitted, so whenever the source serves a
    non-empty frame [analyze_sentiment] raises [NotFittedError] to its
    caller; no handler catches it. *)
Theorem analyze_sentiment_before_training_raises :
  forall {X} (pd : Frames.lib X) weights symbol (w : world X) d x' data features,
    Frames.history pd symbol "1mo" (ext w) = (Returns d, x') ->
    Frames.add_pct_changes pd d = Returns data ->
    Frames.is_empty pd data = false ->
    Frames.last_features pd data = Returns features ->
    Sentiment.analyze_sentiment pd (Sentiment.__init__ weights) symbol w
    = (Raises NotFittedError, with_request w (ReqHistory symbol "1mo") x').
Proof.
  intros X pd weights symbol w d x' data features Hhist Hadd Hne Hfeat.
  assert (Hfetch : Sentiment.fetch_market_data pd symbol "1mo" w
                   = (Returns data, with_request w (ReqHistory symbol "1mo") x')).
  { rewrite fetch_market_data_run, Hhist, Hadd. reflexivity. }
  unfold Sentiment.analyze_sentiment.
  rewrite (bind_returns _ _ _ _ _ Hfetch), Hne.
  unfold bind, lift. rewrite Hfeat. reflexivity.
Qed.

Lemma analyze_sentiment_before_training_raises_witness :
  Sentiment.analyze_sentiment Examples.one_row Examples.analyzer "BTC-USD"
    (Examples.world0 tt)
  = (Raises NotFittedError,
     with_request (Examples.world0 tt) (ReqHistory "BTC-USD" "1mo") tt).
Proof.
  exact (@analyze_sentiment_before_training_raises unit Examples.one_row
           Examples.zero_model "BTC-USD" (Examples.world0 tt)
           [[Num 0; Num 0; Num 1; Num 1; Num 1]] tt
           [[Num 0; Num 0; Num 1; Num 1; Num 1]]
           [[Num 0; Num 0; Num 1; Num 1; Num 1]]
           eq_refl eq_refl eq_refl eq_refl).
Defined.

(** X22.  With a scaler fitted on five features and a source that serves
    rows of five features, [analyze_sentiment] does return: its score is
    the single output of the network on the standardised first row, a
    sigmoid value. *)
Theorem analyze_sentiment_returns_network_output :
  forall {X} (pd : Frames.lib X) self symbol (w : world X) d x' data row rest
         mean scale,
    Frames.history pd symbol "1mo" (ext w) = (Returns d, x') ->
    Frames.add_pct_changes pd d = Returns data ->
    Frames.is_empty pd data = false ->
    Frames.last_features pd data = Returns (row :: rest) ->
    Sentiment.scaler self = Some (mean, scale) ->
    length mean = 5%nat -> length scale = 5%nat ->
    Forall (fun r => length r = 5%nat) (row :: rest) ->
    exists z,
      Sentiment.forward (Sentiment.model self)
        (Sentiment.standardise mean scale row) = [Sentiment.sigmoid z]
      /\ Sentiment.analyze_sentiment pd self symbol w
         = (Returns (Sentiment.sigmoid z),
            with_request w (ReqHistory symbol "1mo") x').
Proof.
  intros X pd self symbol w d x' data row rest mean scale
    Hhist Hadd Hne Hfeat Hsc Hmean Hscale Hrows.
  assert (Hfetch : Sentiment.fetch_market_data pd symbol "1mo" w
                   = (Returns data, with_request w (ReqHistory symbol "1mo") x')).
  { rewrite fetch_market_data_run, Hhist, Hadd. reflexivity. }
  destruct (forward_is_sigmoid (Sentiment.model self)
              (Sentiment.standardise mean scale row)) as [z Hz].
  exists z. split; [exact Hz|].
  assert (Hwidth : forallb (fun r => Nat.eqb (length r) (length mean)) (row :: rest)
                   = true).
  { apply forallb_forall. intros r Hr. apply Nat.eqb_eq.
    rewrite Forall_forall in Hrows. apply list_elem_of_In in Hr.
    rewrite (Hrows r Hr). symmetry; exact Hmean. }
  assert (Hscaled : forallb (fun r => Nat.eqb (length r) 5)
                      (map (Sentiment.standardise mean scale) (row :: rest)) = true).
  { apply forallb_forall. intros r Hr. apply Nat.eqb_eq.
    apply in_map_iff in Hr. destruct Hr as (r0 & <- & Hr0).
    rewrite Forall_forall in Hrows. apply list_elem_of_In in Hr0.
    rewrite standardise_length; rewrite (Hrows r0 Hr0); auto. }
  unfold Sentiment.analyze_sentiment.
  rewrite (bind_returns _ _ _ _ _ Hfetch), Hne.
  unfold bind, lift, ret. rewrite Hfeat.
  unfold Sentiment.transform. rewrite Hsc, Hwidth.
  unfold Sentiment.predict. rewrite Hscaled.
  cbn [map Sentiment.first_cell]. rewrite Hz. reflexivity.
Qed.

Lemma analyze_sentiment_returns_network_output_witness :
  exists z,
    Sentiment.analyze_sentiment Examples.one_row Examples.fitted_analyzer
      "BTC-USD" (Examples.world0 tt)
    = (Returns (Sentiment.sigmoid z),
       with_request (Examples.world0 tt) (ReqHistory "BTC-USD" "1mo") tt).
Proof.
  destruct (@analyze_sentiment_returns_network_output unit Examples.one_row
              Examples.fitted_analyzer "BTC-USD" (Examples.world0 tt)
              [[Num 0; Num 0; Num 1; Num 1; Num 1]] tt
              [[Num 0; Num 0; Num 1; Num 1; Num 1]]
              [Num 0; Num 0; Num 1; Num 1; Num 1] []
              [Num 0; Num 0; Num 0; Num 0; Num 0]
              [Num 1; Num 1; Num 1; Num 1; Num 1]
              eq_refl eq_refl eq_refl eq_refl eq_refl eq_refl eq_refl)
    as (z & _ & Hrun).
  - repeat constructor.
  - exists z. exact Hrun.
Defined.

(** X23.  Each call of [analyze_sentiment], whatever its outcome, asks the
    data source once, for one month of history of the given symbol.  It
    never touches the environment or the console, and the only record it
    can log is the one ERROR record of a failed fetch. *)
Theorem analyze_sentiment_asks_once_for_one_month :
  forall {X} (pd : Frames.lib X) self symbol (w : world X),
    requests (snd (Sentiment.analyze_sentiment pd self symbol w))
    = requests w ++ [ReqHistory symbol "1mo"]
    /\ environ (snd (Sentiment.analyze_sentiment pd self symbol w)) = environ w
    /\ stdout (snd (Sentiment.analyze_sentiment pd self symbol w)) = stdout w
    /\ (logs (snd (Sentiment.analyze_sentiment pd self symbol w)) = logs w
        \/ exists e,
             logs (snd (Sentiment.analyze_sentiment pd self symbol w))
             = logs w ++ [LogRecord ERROR "Data fetching failed: " (ArgExn e)]).
Proof.
  intros X pd self symbol w.
  rewrite analyze_sentiment_world, fetch_market_data_run.
  destruct (Frames.history pd symbol "1mo" (ext w)) as [[d|e] x'].
  - destruct (Frames.add_pct_changes pd d) as [data|e]; simpl.
    + repeat split; auto.
    + repeat split; eauto.
  - simpl. repeat split; eauto.
Qed.

(** ** Logging set-up *)

(** X24.  On a configured object [_setup_logging] asks for level ERROR
    exactly when the stored ENVIRONMENT equals [production], and for INFO
    otherwise.  When [basicConfig] returns, one console handler is added;
    when it raises (the log directory may be missing), the exception
    reaches the caller and no handler is added. *)
Theorem setup_logging_level_follows_environment :
  forall {X} (basicConfig : level -> X -> outcome unit * X) (self : nat)
         (p : AppConfig.proc X) o d,
    AppConfig.heap p !! self = Some o ->
    AppConfig.config o = Some d ->
    exists lvl r x',
      (lvl = ERROR <-> d !! "ENVIRONMENT" = Some (VStr "production"))
      /\ (lvl = INFO <-> d !! "ENVIRONMENT" <> Some (VStr "production"))
      /\ basicConfig lvl (ext (AppConfig.os p)) = (r, x')
      /\ AppConfig._setup_logging basicConfig self p
         = (r,
            AppConfig.Proc
              (with_request (AppConfig.os p) (ReqLoggingBasicConfig lvl) x')
              (AppConfig._instance p) (AppConfig.heap p)
              (match r with
               | Returns _ => S (AppConfig.console_handlers p)
               | Raises _ => AppConfig.console_handlers p
               end)).
Proof.
  intros X basicConfig self p o d Hself Hcfg.
  set (v := default VNone (d !! "ENVIRONMENT")).
  set (lvl := if negb (eq_str v "production") then INFO else ERROR).
  destruct (basicConfig lvl (ext (AppConfig.os p))) as [r x'] eqn:Ebasic.
  exists lvl, r, x'.
  assert (Hprod : eq_str v "production" = true
                  <-> d !! "ENVIRONMENT" = Some (VStr "production")).
  { subst v. destruct (d !! "ENVIRONMENT") as [[| | | |s| |]|]; simpl;
      try (split; [discriminate|intros H; discriminate H || (injection H; discriminate)]).
    - destruct (String.eqb_spec s "production") as [->|Hne].
      + split; auto.
      + split; [discriminate|]. intros H; injection H as ->. contradiction. }
  split; [|split; [|split; [exact Ebasic|]]].
  - subst lvl. destruct (eq_str v "production"); simpl.
    + split; [intros _; apply Hprod; reflexivity|reflexivity].
    + split; [discriminate|]. intros H. apply Hprod in H. discriminate H.
  - subst lvl. destruct (eq_str v "production"); simpl.
    + split; [discriminate|]. intros H. exfalso. apply H, Hprod. reflexivity.
    + split; [|reflexivity]. intros _ H. apply Hprod in H. discriminate H.
  - unfold AppConfig._setup_logging.
    rewrite (bind_returns _ _ _ _ _
               (get_config_run self "ENVIRONMENT" VNone p o d Hself Hcfg)).
    fold v. cbv zeta. fold lvl.
    unfold bind, AppConfig.in_os. rewrite (call_step _ _ _ _ _ Ebasic).
    destruct r as [[]|e]; reflexivity.
Qed.

Lemma setup_logging_level_follows_environment_witness :
  exists q,
    AppConfig._setup_logging Examples.basicConfig_ok 0
      (Examples.configured (Examples.config_of MoreExamples.production_env))
    = (Returns tt, q)
    /\ requests (AppConfig.os q) = [ReqLoggingBasicConfig ERROR]
    /\ AppConfig.console_handlers q = 1%nat.
Proof.
  destruct (@setup_logging_level_follows_environment unit Examples.basicConfig_ok
              0%nat
              (Examples.configured (Examples.config_of MoreExamples.production_env))
              (AppConfig.Obj
                 (Some (Examples.config_of MoreExamples.production_env)) (Some true))
              (Examples.config_of MoreExamples.production_env) eq_refl eq_refl)
    as (lvl & r & x' & Herror & _ & Hbasic & Hrun).
  assert (Hlvl : lvl = ERROR) by (apply Herror; reflexivity).
  subst lvl. injection Hbasic as <- <-.
  eexists. split; [exact Hrun|]. split; reflexivity.
Defined.
